(** * The mock secure-messaging protocol of [demo_complete.py] and [test_demo.py]

    A shallow embedding of the two demonstration scripts: the mock
    "encryption" (base64 over UTF-8), the mock "signature" (a truncated
    HMAC-SHA256 hex digest) and the in-memory relay server with its client
    registry and message list.

    Python values are modelled as follows.
    - [str]: the list of its Unicode code points (numbers below 0x110000;
      lone surrogates are legal in a Python [str]).
    - [bytes]: the list of its byte values (numbers below 256).
    - a raised exception: the [Raise] outcome of the [result] monad.
    - the registry dict: a finite map from [str] to [str].
    - a message dict or a response dict: a record, resp. a tagged union.
    - the clock and the UUID generator: arguments of the calls that read
      them.
    Printing and the JSON file written by [save_data] are left out; the
    key names of [MockClient.__init__] (an MD5 digest of the client name)
    are fields of the client record. *)

From Stdlib Require Import NArith ZArith List String Ascii Lia Bool ZifyBool.
From stdpp Require Import base option list gmap.

Local Open Scope N_scope.

(** ** Outcomes of a call: a value, or a raised exception *)

Inductive exn : Type :=
  | UnicodeEncodeError   (* str.encode() on a lone surrogate *)
  | UnicodeDecodeError   (* bytes.decode() on ill-formed UTF-8 *)
  | ValueError           (* base64.b64decode on a non-ASCII str *)
  | BinasciiError.       (* binascii.Error: bad padding or length *)

Inductive result (A : Type) : Type :=
  | Ok (a : A)
  | Raise (e : exn).
Arguments Ok {A} a.
Arguments Raise {A} e.

#[global] Instance result_ret : MRet result := @Ok.
#[global] Instance result_bind : MBind result := λ A B f m,
  match m with Ok a => f a | Raise e => Raise e end.
#[global] Instance result_fmap : FMap result := λ A B f m,
  match m with Ok a => Ok (f a) | Raise e => Raise e end.

(** ** Strings and bytes *)

Abbreviation str := (list N) (only parsing).
Abbreviation bytes := (list N) (only parsing).

(** A Rocq string literal read as a Python [str] of ASCII characters. *)
Definition py (s : string) : str := map N_of_ascii (list_ascii_of_string s).

(** The code points [str.encode()] accepts: Unicode scalar values. *)
Definition is_surrogate (c : N) : bool := (0xD800 <=? c) && (c <=? 0xDFFF).
Definition scalar (c : N) : Prop :=
  c < 0x110000 ∧ is_surrogate c = false.
Definition encodable (s : str) : Prop := Forall scalar s.

#[global] Instance scalar_dec c : Decision (scalar c).
Proof. unfold scalar. apply _. Defined.
#[global] Instance encodable_dec s : Decision (encodable s).
Proof. unfold encodable. apply _. Defined.

(** [s.startswith(prefix)] *)
Fixpoint startswith (s prefix : str) {struct prefix} : bool :=
  match prefix, s with
  | [], _ => true
  | p :: prefix', c :: s' => (c =? p) && startswith s' prefix'
  | _ :: _, [] => false
  end.

(** [s.split(sep)] for a one-character separator: every occurrence of
    [sep] ends a part, so [n] occurrences give [n + 1] parts. *)
Fixpoint split (sep : N) (s : str) : list str :=
  match s with
  | [] => [[]]
  | c :: s' =>
      if c =? sep then [] :: split sep s'
      else match split sep s' with
           | p :: ps => (c :: p) :: ps
           | [] => [[c]]
           end
  end.

(** ** UTF-8, the default codec of [str.encode()] and [bytes.decode()] *)

Definition utf8_encode_char (c : N) : result bytes :=
  if c <? 0x80 then Ok [c]
  else if c <? 0x800 then
    Ok [N.lor 0xC0 (N.shiftr c 6); N.lor 0x80 (N.land c 0x3F)]
  else if c <? 0x10000 then
    if is_surrogate c then Raise UnicodeEncodeError
    else Ok [N.lor 0xE0 (N.shiftr c 12);
             N.lor 0x80 (N.land (N.shiftr c 6) 0x3F);
             N.lor 0x80 (N.land c 0x3F)]
  else if c <? 0x110000 then
    Ok [N.lor 0xF0 (N.shiftr c 18);
        N.lor 0x80 (N.land (N.shiftr c 12) 0x3F);
        N.lor 0x80 (N.land (N.shiftr c 6) 0x3F);
        N.lor 0x80 (N.land c 0x3F)]
  else Raise UnicodeEncodeError.

(** [s.encode()] *)
Fixpoint encode (s : str) : result bytes :=
  match s with
  | [] => Ok []
  | c :: s' =>
      b ← utf8_encode_char c;
      bs ← encode s';
      Ok (b ++ bs)
  end.

Definition is_continuation (b : N) : bool := (0x80 <=? b) && (b <? 0xC0).

(** [b.decode()], strict: overlong forms, surrogates, values above
    0x10FFFF, stray continuation bytes and truncated sequences all raise. *)
Fixpoint decode (b : bytes) : result str :=
  match b with
  | [] => Ok []
  | ch :: r0 =>
      if ch <? 0x80 then cons ch <$> decode r0
      else if ch <? 0xC2 then Raise UnicodeDecodeError
      else if ch <? 0xE0 then
        match r0 with
        | ch2 :: r1 =>
            if is_continuation ch2
            then cons (N.shiftl ch 6 + ch2 - 0x3080) <$> decode r1
            else Raise UnicodeDecodeError
        | [] => Raise UnicodeDecodeError
        end
      else if ch <? 0xF0 then
        match r0 with
        | ch2 :: ch3 :: r2 =>
            if negb (is_continuation ch2)
               || (if ch2 <? 0xA0 then ch =? 0xE0 else ch =? 0xED)
               || negb (is_continuation ch3)
            then Raise UnicodeDecodeError
            else cons (N.shiftl ch 12 + N.shiftl ch2 6 + ch3 - 0xE2080)
                   <$> decode r2
        | _ => Raise UnicodeDecodeError
        end
      else if ch <? 0xF5 then
        match r0 with
        | ch2 :: ch3 :: ch4 :: r3 =>
            if negb (is_continuation ch2)
               || (if ch2 <? 0x90 then ch =? 0xF0 else ch =? 0xF4)
               || negb (is_continuation ch3)
               || negb (is_continuation ch4)
            then Raise UnicodeDecodeError
            else cons (N.shiftl ch 18 + N.shiftl ch2 12 + N.shiftl ch3 6
                       + ch4 - 0x3C82080)
                   <$> decode r3
        | _ => Raise UnicodeDecodeError
        end
      else Raise UnicodeDecodeError
  end.

(** ** Base64 (module [base64] over [binascii]) *)

Definition table_b2a_base64 : str :=
  py "ABCDEFGHIJKLMNOPQRSTUVWXYZabcdefghijklmnopqrstuvwxyz0123456789+/".

Definition BASE64_PAD : N := 61.   (* '=' *)

Definition b2a (v : N) : N := nth (N.to_nat v) table_b2a_base64 BASE64_PAD.

(** The inverse table: the 6-bit value of an alphabet character. *)
Fixpoint index_of (c : N) (l : list N) (i : N) : option N :=
  match l with
  | [] => None
  | x :: l' => if x =? c then Some i else index_of c l' (i + 1)
  end.
Definition table_a2b_base64 (c : N) : option N := index_of c table_b2a_base64 0.

(** [base64.b64encode(b)]: three bytes give four characters; a final
    group of one or two bytes is padded with ['=']. *)
Fixpoint b64encode (b : bytes) : bytes :=
  match b with
  | [] => []
  | [x] => [b2a (N.shiftr x 2); b2a (N.shiftl (N.land x 3) 4);
            BASE64_PAD; BASE64_PAD]
  | [x; y] =>
      [b2a (N.shiftr x 2);
       b2a (N.lor (N.shiftl (N.land x 3) 4) (N.shiftr y 4));
       b2a (N.shiftl (N.land y 0xF) 2);
       BASE64_PAD]
  | x :: y :: z :: b' =>
      b2a (N.shiftr x 2)
      :: b2a (N.lor (N.shiftl (N.land x 3) 4) (N.shiftr y 4))
      :: b2a (N.lor (N.shiftl (N.land y 0xF) 2) (N.shiftr z 6))
      :: b2a (N.land z 0x3F)
      :: b64encode b'
  end.

(** [binascii.a2b_base64(data)] in its default, non-strict mode: the loop
    over the input with its three state variables.  Characters outside
    the alphabet are skipped; a pad that completes a quad ends the
    decoding; data left in an incomplete quad raises [binascii.Error]. *)
Fixpoint a2b_base64_loop (data : bytes) (quad_pos leftchar pads : N)
  : result bytes :=
  match data with
  | [] => if quad_pos =? 0 then Ok [] else Raise BinasciiError
  | this_ch :: data' =>
      if this_ch =? BASE64_PAD then
        if (2 <=? quad_pos) && (4 <=? quad_pos + (pads + 1)) then Ok []
        else a2b_base64_loop data' quad_pos leftchar
               (if 2 <=? quad_pos then pads + 1 else pads)
      else
        match table_a2b_base64 this_ch with
        | None => a2b_base64_loop data' quad_pos leftchar pads
        | Some v =>
            if quad_pos =? 0 then a2b_base64_loop data' 1 v 0
            else if quad_pos =? 1 then
              cons (N.land (N.lor (N.shiftl leftchar 2) (N.shiftr v 4)) 0xFF)
                <$> a2b_base64_loop data' 2 (N.land v 0xF) 0
            else if quad_pos =? 2 then
              cons (N.land (N.lor (N.shiftl leftchar 4) (N.shiftr v 2)) 0xFF)
                <$> a2b_base64_loop data' 3 (N.land v 0x3) 0
            else
              cons (N.land (N.lor (N.shiftl leftchar 6) v) 0xFF)
                <$> a2b_base64_loop data' 0 0 0
        end
  end.

Definition a2b_base64 (data : bytes) : result bytes :=
  a2b_base64_loop data 0 0 0.

(** [base64.b64decode(s)] on a [str] argument: the string must be ASCII. *)
Definition b64decode (s : str) : result bytes :=
  if forallb (λ c, c <? 0x80) s then a2b_base64 s else Raise ValueError.

(** ** [MockClient] *)

Record MockClient := {
  name : str;
  ed25519_key : str;
  x25519_key : str;
  contacts : gmap str str
}.

(** [MockClient.get_public_keys]: the dict with keys "ed25519", "x25519". *)
Definition get_public_keys (self : MockClient) : str * str :=
  (ed25519_key self, x25519_key self).

(** [MockClient.add_contact] *)
Definition add_contact (self : MockClient)
    (contact_name contact_x25519_key : str) : MockClient :=
  {| name := name self;
     ed25519_key := ed25519_key self;
     x25519_key := x25519_key self;
     contacts := <[contact_name := contact_x25519_key]> (contacts self) |}.

Definition DECRYPTION_FAILED : str := py "DECRYPTION_FAILED".

(** [MockClient.encrypt]: "encrypted_" ++ base64 of the UTF-8 bytes ++ "_"
    ++ the first eight characters of the recipient key. *)
Definition encrypt (self : MockClient) (message recipient_key : str)
  : result str :=
  m ← encode message;
  encrypted ← decode (b64encode m);
  Ok (py "encrypted_" ++ encrypted ++ py "_" ++ take 8 recipient_key).

(** [MockClient.decrypt] *)
Definition decrypt (self : MockClient) (encrypted_msg sender_key : str)
  : result str :=
  if startswith encrypted_msg (py "encrypted_") then
    let parts := split 95 encrypted_msg in
    if (3 <=? length parts)%nat then
      b ← b64decode (nth 1 parts []);
      decode b
    else Ok DECRYPTION_FAILED
  else Ok DECRYPTION_FAILED.

(** ** SHA-256 and HMAC (modules [hashlib] and [hmac]) *)

Definition w32 (x : N) : N := N.land x 0xFFFFFFFF.
Definition add32 (x y : N) : N := w32 (x + y).
Definition rotr (n x : N) : N :=
  N.lor (N.shiftr x n) (w32 (N.shiftl x (32 - n))).
Definition Ch (x y z : N) : N :=
  N.lxor (N.land x y) (N.land (N.lxor x 0xFFFFFFFF) z).
Definition Maj (x y z : N) : N :=
  N.lxor (N.land x y) (N.lxor (N.land x z) (N.land y z)).
Definition Sigma0 (x : N) : N := N.lxor (rotr 2 x) (N.lxor (rotr 13 x) (rotr 22 x)).
Definition Sigma1 (x : N) : N := N.lxor (rotr 6 x) (N.lxor (rotr 11 x) (rotr 25 x)).
Definition sigma0 (x : N) : N := N.lxor (rotr 7 x) (N.lxor (rotr 18 x) (N.shiftr x 3)).
Definition sigma1 (x : N) : N := N.lxor (rotr 17 x) (N.lxor (rotr 19 x) (N.shiftr x 10)).

(** The constants of the standard are derived as it defines them: the
    first 32 bits of the fractional parts of the cube roots (round
    constants) and of the square roots (initial hash value) of the first
    primes. *)
Definition first_primes : list N :=
  [2; 3; 5; 7; 11; 13; 17; 19; 23; 29; 31; 37; 41; 43; 47; 53; 59; 61; 67;
   71; 73; 79; 83; 89; 97; 101; 103; 107; 109; 113; 127; 131; 137; 139; 149;
   151; 157; 163; 167; 173; 179; 181; 191; 193; 197; 199; 211; 223; 227;
   229; 233; 239; 241; 251; 257; 263; 269; 271; 277; 281; 283; 293; 307;
   311].

(** The integer cube root, one bit at a time from bit [i - 1] down. *)
Fixpoint cbrt_bits (i : nat) (n r : N) : N :=
  match i with
  | O => r
  | S i' =>
      let r' := r + N.shiftl 1 (N.of_nat i') in
      cbrt_bits i' n (if r' * r' * r' <=? n then r' else r)
  end.

Definition frac32_cbrt (p : N) : N := w32 (cbrt_bits 36 (N.shiftl p 96) 0).
Definition frac32_sqrt (p : N) : N := w32 (N.sqrt (N.shiftl p 64)).

Definition sha256_K : list N :=
  Eval vm_compute in map frac32_cbrt first_primes.
Definition sha256_H0 : list N :=
  Eval vm_compute in map frac32_sqrt (take 8 first_primes).

(** Big-endian conversions between bytes and words. *)
Fixpoint be_words (b : bytes) : list N :=
  match b with
  | b0 :: b1 :: b2 :: b3 :: b' =>
      (N.shiftl b0 24 + N.shiftl b1 16 + N.shiftl b2 8 + b3) :: be_words b'
  | _ => []
  end.
Definition be_bytes (n : nat) (x : N) : bytes :=
  map (λ i, N.land (N.shiftr x (8 * N.of_nat i)) 0xFF) (rev (seq 0 n)).

(** The padded message: 0x80, zeros up to 56 modulo 64, the bit length. *)
Definition sha256_pad (msg : bytes) : bytes :=
  let len := N.of_nat (length msg) in
  let zeros := (55 + 64 - len mod 64) mod 64 in
  msg ++ [0x80] ++ repeat 0 (N.to_nat zeros) ++ be_bytes 8 (8 * len).

Fixpoint chunks (n : nat) (b : bytes) : list bytes :=
  match n with
  | O => []
  | S n' => take 64 b :: chunks n' (drop 64 b)
  end.

(** The message schedule, most recent word first. *)
Fixpoint schedule (n : nat) (w : list N) : list N :=
  match n with
  | O => w
  | S n' =>
      schedule n'
        (add32 (add32 (sigma1 (nth 1 w 0)) (nth 6 w 0))
               (add32 (sigma0 (nth 14 w 0)) (nth 15 w 0)) :: w)
  end.

Definition sha256_round (st : list N) (kw : N * N) : list N :=
  match st with
  | [a; b; c; d; e; f; g; h] =>
      let t1 := add32 (add32 (add32 h (Sigma1 e)) (add32 (Ch e f g) kw.1)) kw.2 in
      let t2 := add32 (Sigma0 a) (Maj a b c) in
      [add32 t1 t2; a; b; c; add32 d t1; e; f; g]
  | _ => st
  end.

Definition sha256_block (h : list N) (block : bytes) : list N :=
  let w := rev (schedule 48 (rev (be_words block))) in
  zip_with add32 h (fold_left sha256_round (zip sha256_K w) h).

(** [hashlib.sha256(msg).digest()] *)
Definition sha256 (msg : bytes) : bytes :=
  let padded := sha256_pad msg in
  let h := fold_left sha256_block (chunks (length padded / 64) padded) sha256_H0 in
  concat (map (be_bytes 4) h).

(** [hmac.new(key, msg, hashlib.sha256).digest()] *)
Definition hmac_sha256 (key msg : bytes) : bytes :=
  let k := if (64 <? length key)%nat then sha256 key else key in
  let k := k ++ repeat 0 (64 - length k)%nat in
  sha256 (map (N.lxor 0x5C) k ++ sha256 (map (N.lxor 0x36) k ++ msg)).

(** [digest.hex()]: two lower-case hexadecimal digits per byte. *)
Definition hex_digit (v : N) : N := nth (N.to_nat v) (py "0123456789abcdef") 48.
Definition hexdigest (b : bytes) : str :=
  concat (map (λ x, [hex_digit (N.shiftr x 4); hex_digit (N.land x 0xF)]) b).

(** [hmac.new(key.encode(), message.encode(), hashlib.sha256).hexdigest()[:64]],
    the expression shared by [MockClient.sign] and [MockServer.send_message]. *)
Definition hmac_hex64 (key message : str) : result str :=
  k ← encode key;
  m ← encode message;
  Ok (take 64 (hexdigest (hmac_sha256 k m))).

(** [MockClient.sign] *)
Definition sign (self : MockClient) (message : str) : result str :=
  hmac_hex64 (ed25519_key self) message.

(** ** [MockServer] *)

(** A stored message: the dict with keys "id", "sender_id",
    "recipient_id", "content", "timestamp" and "signature". *)
Record Message := {
  msg_id : str;
  msg_sender_id : str;
  msg_recipient_id : str;
  msg_content : str;
  msg_timestamp : str;
  msg_signature : str
}.

#[global] Instance Message_eq_dec : EqDecision Message.
Proof. solve_decision. Defined.

(** A response: the dict whose "type" entry is the constructor. *)
Inductive Response : Type :=
  | Registered (server_public_key : str)
  | Error (message : str)
  | MessageSent (message_id : str)
  | MessageReceived (message : Message).

Record MockServer := {
  clients : gmap str str;
  messages : list Message
}.

(** [MockServer.__init__] *)
Definition new_server : MockServer := {| clients := ∅; messages := [] |}.

Definition SERVER_PUBLIC_KEY : str := py "server_ed25519_key_abcdef1234567890".

(** Every method takes the server before the call and returns its
    outcome with the server after the call. *)

(** [MockServer.register_client] *)
Definition register_client (self : MockServer) (client_id public_key : str)
  : Response * MockServer :=
  (Registered SERVER_PUBLIC_KEY,
   {| clients := <[client_id := public_key]> (clients self);
      messages := messages self |}).

(** [MockServer.send_message]; [now] is what [datetime.now().isoformat()]
    reads from the clock during the call. *)
Definition send_message (self : MockServer)
    (sender_id recipient_id encrypted_content signature message_id : str)
    (now : str) : result Response * MockServer :=
  match clients self !! sender_id with
  | None => (Ok (Error (py "Unknown sender: " ++ sender_id)), self)
  | Some key =>
      match hmac_hex64 key encrypted_content with
      | Raise e => (Raise e, self)
      | Ok expected_signature =>
          if bool_decide (signature ≠ expected_signature)
          then (Ok (Error (py "Invalid signature")), self)
          else
            let message :=
              {| msg_id := message_id;
                 msg_sender_id := sender_id;
                 msg_recipient_id := recipient_id;
                 msg_content := encrypted_content;
                 msg_timestamp := now;
                 msg_signature := signature |} in
            (Ok (MessageSent message_id),
             {| clients := clients self;
                messages := messages self ++ [message] |})
      end
  end.

(** [MockServer.get_messages_for_client] *)
Definition get_messages_for_client (self : MockServer) (client_id : str)
  : list Message * MockServer :=
  (filter (λ msg, msg_recipient_id msg = client_id) (messages self), self).

(** [MockServer.get_all_messages] *)
Definition get_all_messages (self : MockServer) : list Message * MockServer :=
  (messages self, self).

(** ** The methods of [MockClient] that talk to the server *)

(** [MockClient.send_message]; [uuid] is the value of [str(uuid.uuid4())].
    An unknown recipient raises [ValueError] before any other work. *)
Definition client_send_message (self : MockClient) (server : MockServer)
    (recipient message : str) (uuid now : str) : result unit * MockServer :=
  match contacts self !! recipient with
  | None => (Raise ValueError, server)
  | Some recipient_key =>
      match (encrypted ← encrypt self message recipient_key;
             signature ← sign self encrypted;
             Ok (encrypted, signature)) with
      | Raise e => (Raise e, server)
      | Ok (encrypted, signature) =>
          let '(r, server') :=
            send_message server (name self) recipient encrypted signature
              uuid now in
          (_ ← r; Ok tt, server')
      end
  end.

(** A decrypted message, as [receive_messages] returns it. *)
Record Decrypted := {
  d_sender_id : str;
  d_decrypted_content : str;
  d_timestamp : str
}.

Fixpoint decrypt_all (self : MockClient) (msgs : list Message)
  : result (list Decrypted) :=
  match msgs with
  | [] => Ok []
  | msg :: msgs' =>
      match contacts self !! msg_sender_id msg with
      | Some key =>
          decrypted ← decrypt self (msg_content msg) key;
          rest ← decrypt_all self msgs';
          Ok ({| d_sender_id := msg_sender_id msg;
                 d_decrypted_content := decrypted;
                 d_timestamp := msg_timestamp msg |} :: rest)
      | None => decrypt_all self msgs'
      end
  end.

(** [MockClient.receive_messages] *)
Definition receive_messages (self : MockClient) (server : MockServer)
  : result (list Decrypted) * MockServer :=
  let '(msgs, server') := get_messages_for_client server (name self) in
  (decrypt_all self msgs, server').

(** ** The earlier demonstration, [test_demo.py]

    Its [MockCrypto] and [MockServer] classes repeat the ones above, except
    for the fixed key suffixes and for [get_messages], which answers with
    one message only. *)
Module TestDemo.

Record MockCrypto := {
  name : str;
  ed25519_key : str;
  x25519_key : str
}.

(** [MockCrypto.__init__] *)
Definition new_crypto (name : str) : MockCrypto :=
  {| name := name;
     ed25519_key := name ++ py "_ed25519_key_1234567890abcdef";
     x25519_key := name ++ py "_x25519_key_abcdef1234567890" |}.

(** [MockCrypto.sign] *)
Definition sign (self : MockCrypto) (message : str) : result str :=
  hmac_hex64 (ed25519_key self) message.

(** [MockCrypto.encrypt] *)
Definition encrypt (self : MockCrypto) (message recipient_key : str)
  : result str :=
  m ← encode message;
  encrypted ← decode (b64encode m);
  Ok (py "encrypted_" ++ encrypted ++ py "_" ++ take 8 recipient_key).

(** [MockCrypto.decrypt] *)
Definition decrypt (self : MockCrypto) (encrypted_msg sender_key : str)
  : result str :=
  if startswith encrypted_msg (py "encrypted_") then
    let parts := split 95 encrypted_msg in
    if (3 <=? length parts)%nat then
      b ← b64decode (nth 1 parts []);
      decode b
    else Ok DECRYPTION_FAILED
  else Ok DECRYPTION_FAILED.

(** [MockServer.register_client] *)
Definition register_client (self : MockServer) (client_id public_key : str)
  : Response * MockServer :=
  (Registered SERVER_PUBLIC_KEY,
   {| clients := <[client_id := public_key]> (clients self);
      messages := messages self |}).

(** [MockServer.send_message] *)
Definition send_message (self : MockServer)
    (sender_id recipient_id encrypted_content signature message_id : str)
    (now : str) : result Response * MockServer :=
  match clients self !! sender_id with
  | None => (Ok (Error (py "Unknown sender: " ++ sender_id)), self)
  | Some key =>
      match hmac_hex64 key encrypted_content with
      | Raise e => (Raise e, self)
      | Ok expected_signature =>
          if bool_decide (signature ≠ expected_signature)
          then (Ok (Error (py "Invalid signature")), self)
          else
            let message :=
              {| msg_id := message_id;
                 msg_sender_id := sender_id;
                 msg_recipient_id := recipient_id;
                 msg_content := encrypted_content;
                 msg_timestamp := now;
                 msg_signature := signature |} in
            (Ok (MessageSent message_id),
             {| clients := clients self;
                messages := messages self ++ [message] |})
      end
  end.

(** [MockServer.get_messages]: the last matching message, or an error
    response when there is none. *)
Definition get_messages (self : MockServer) (client_id : str)
  : Response * MockServer :=
  let client_messages :=
    filter (λ msg, msg_recipient_id msg = client_id) (messages self) in
  match last client_messages with
  | Some msg => (MessageReceived msg, self)
  | None => (Error (py "No messages found"), self)
  end.

End TestDemo.

(** ** Auxiliary definitions for the statements below *)

(** The part of [s] before its first [sep]: what [s.split(sep)[0]] is. *)
Fixpoint before (sep : N) (s : str) : str :=
  match s with
  | [] => []
  | c :: s' => if c =? sep then [] else c :: before sep s'
  end.

(** Replacing character [i] of the ciphertext portion of an encrypted
    message; the portion starts after the ten characters "encrypted_". *)
Definition tamper (c : str) (i : nat) (ch : N) : str :=
  <[(10 + i)%nat := ch]> c.

(** Decrypting what [self] encrypted gives the plaintext back. *)
Definition round_trip (self other : MockClient) (P K k : str) : Prop :=
  (c ← encrypt self P K; decrypt other c k) = Ok P.

(** Two calls of [encrypt] on the same arguments differ in their output;
    [self] and [self'] are the client at the first and at the second call. *)
Definition fresh (self self' : MockClient) (P K : str) : Prop :=
  encrypt self P K ≠ encrypt self' P K.

(** A changed ciphertext character is answered with DECRYPTION_FAILED. *)
Definition tamper_rejected (self other : MockClient) (P K k : str)
    (i : nat) (ch : N) : Prop :=
  ∀ c, encrypt self P K = Ok c →
       decrypt other (tamper c i ch) k = Ok DECRYPTION_FAILED.

(** The number of stored records with a given id. *)
Definition count_id (message_id : str) (msgs : list Message) : nat :=
  length (filter (λ m, msg_id m = message_id) msgs).

(** A repeated message id is answered with an error and not stored. *)
Definition duplicate_rejected (s : MockServer)
    (sender_id recipient_id content signature message_id now : str) : Prop :=
  let '(r, s') :=
    send_message s sender_id recipient_id content signature message_id now in
  (∃ e, r = Ok (Error e))
  ∧ count_id message_id (messages s') = count_id message_id (messages s).

(** The call is answered as a signature check answers: with an error
    response and the server unchanged, or with MessageSent for the
    supplied id and exactly one record appended. *)
Definition signature_checked (s : MockServer)
    (sender_id recipient_id content signature message_id now : str) : Prop :=
  let '(r, s') :=
    send_message s sender_id recipient_id content signature message_id now in
  ((∃ e, r = Ok (Error e)) ∧ s' = s)
  ∨ (r = Ok (MessageSent message_id)
     ∧ ∃ m, messages s' = messages s ++ [m]).

(** The records a retrieval response carries, and the claim that they are
    all the records addressed to the client, in storage order. *)
Definition records_of (r : Response) : option (list Message) :=
  match r with
  | MessageReceived m => Some [m]
  | _ => None
  end.
Definition returns_all (got : option (list Message)) (s : MockServer)
    (client_id : str) : Prop :=
  got = Some (filter (λ m, msg_recipient_id m = client_id) (messages s)).

(** Two clients for the examples, with the keys [test_demo.py] gives. *)
Definition client_of (c : TestDemo.MockCrypto) : MockClient :=
  {| name := TestDemo.name c;
     ed25519_key := TestDemo.ed25519_key c;
     x25519_key := TestDemo.x25519_key c;
     contacts := ∅ |}.
Definition alice : MockClient := client_of (TestDemo.new_crypto (py "alice")).
Definition bob : MockClient := client_of (TestDemo.new_crypto (py "bob")).

(** The bit arithmetic of one group, checked on all byte values. *)
Definition group_check (x y : N) : bool :=
  let s0 := N.shiftr x 2 in
  let s1 := N.lor (N.shiftl (N.land x 3) 4) (N.shiftr y 4) in
  let s1' := N.shiftl (N.land x 3) 4 in
  let s2 := N.lor (N.shiftl (N.land x 0xF) 2) (N.shiftr y 6) in
  let s2' := N.shiftl (N.land x 0xF) 2 in
  let s3 := N.land x 0x3F in
  (s0 <? 64) && (s1 <? 64) && (s1' <? 64) && (s2 <? 64) && (s2' <? 64)
  && (s3 <? 64)
  && (N.land (N.lor (N.shiftl s0 2) (N.shiftr s1 4)) 0xFF =? x)
  && (N.land (N.lor (N.shiftl s0 2) (N.shiftr s1' 4)) 0xFF =? x)
  && (N.land s1 0xF =? N.shiftr y 4)
  && (N.land (N.lor (N.shiftl (N.shiftr x 4) 4) (N.shiftr s2 2)) 0xFF =? x)
  && (N.land (N.lor (N.shiftl (N.shiftr x 4) 4) (N.shiftr s2' 2)) 0xFF =? x)
  && (N.land s2 3 =? N.shiftr y 6)
  && (N.land (N.lor (N.shiftl (N.shiftr x 6) 6) s3) 0xFF =? x).


(** Server states for the examples: alice registered; then one message
    from alice to bob stored; then a second one. *)
Definition c_hi : str := py "encrypted_aGk=_bob_x255".
Definition sig_hi : str :=
  py "d576979b21adcd1e5c042294e3f34c129218260b6e3ebb53e0ea4e1e6d9261ee".
Definition s_alice : MockServer :=
  (register_client new_server (py "alice") (ed25519_key alice)).2.
Definition s_one : MockServer :=
  (send_message s_alice (py "alice") (py "bob") c_hi sig_hi
     (py "msg_001") (py "2024-01-01T10:00:00")).2.
Definition s_two : MockServer :=
  (send_message s_one (py "alice") (py "bob") c_hi sig_hi
     (py "msg_002") (py "2024-01-01T10:00:01")).2.

(** ** MD5 (module [hashlib]) and the constructor of [MockClient] *)

Definition rotl32 (n x : N) : N :=
  N.lor (w32 (N.shiftl x n)) (N.shiftr x (32 - n)).

(** The per-step rotations and the table of |sin(i + 1)| * 2^32. *)
Definition md5_S : list N :=
  concat (map (λ r, r ++ r ++ r ++ r)
            [[7; 12; 17; 22]; [5; 9; 14; 20]; [4; 11; 16; 23]; [6; 10; 15; 21]]).

Definition md5_K : list N :=
  [0xd76aa478; 0xe8c7b756; 0x242070db; 0xc1bdceee; 0xf57c0faf; 0x4787c62a;
   0xa8304613; 0xfd469501; 0x698098d8; 0x8b44f7af; 0xffff5bb1; 0x895cd7be;
   0x6b901122; 0xfd987193; 0xa679438e; 0x49b40821; 0xf61e2562; 0xc040b340;
   0x265e5a51; 0xe9b6c7aa; 0xd62f105d; 0x02441453; 0xd8a1e681; 0xe7d3fbc8;
   0x21e1cde6; 0xc33707d6; 0xf4d50d87; 0x455a14ed; 0xa9e3e905; 0xfcefa3f8;
   0x676f02d9; 0x8d2a4c8a; 0xfffa3942; 0x8771f681; 0x6d9d6122; 0xfde5380c;
   0xa4beea44; 0x4bdecfa9; 0xf6bb4b60; 0xbebfbc70; 0x289b7ec6; 0xeaa127fa;
   0xd4ef3085; 0x04881d05; 0xd9d4d039; 0xe6db99e5; 0x1fa27cf8; 0xc4ac5665;
   0xf4292244; 0x432aff97; 0xab9423a7; 0xfc93a039; 0x655b59c3; 0x8f0ccc92;
   0xffeff47d; 0x85845dd1; 0x6fa87e4f; 0xfe2ce6e0; 0xa3014314; 0x4e0811a1;
   0xf7537e82; 0xbd3af235; 0x2ad7d2bb; 0xeb86d391].

Definition md5_H0 : list N := [0x67452301; 0xefcdab89; 0x98badcfe; 0x10325476].

(** Little-endian conversions between bytes and words. *)
Fixpoint le_words (b : bytes) : list N :=
  match b with
  | b0 :: b1 :: b2 :: b3 :: b' =>
      (b0 + N.shiftl b1 8 + N.shiftl b2 16 + N.shiftl b3 24) :: le_words b'
  | _ => []
  end.
Definition le_bytes (n : nat) (x : N) : bytes :=
  map (λ i, N.land (N.shiftr x (8 * N.of_nat i)) 0xFF) (seq 0 n).

Definition md5_pad (msg : bytes) : bytes :=
  let len := N.of_nat (length msg) in
  let zeros := (55 + 64 - len mod 64) mod 64 in
  msg ++ [0x80] ++ repeat 0 (N.to_nat zeros) ++ le_bytes 8 (8 * len).

Definition md5_step (M : list N) (st : list N) (i : nat) : list N :=
  match st with
  | [A; B; C; D] =>
      let not32 x := N.lxor x 0xFFFFFFFF in
      let '(F, g) :=
        if (i <? 16)%nat then
          (N.lor (N.land B C) (N.land (not32 B) D), i)
        else if (i <? 32)%nat then
          (N.lor (N.land D B) (N.land (not32 D) C), ((5 * i + 1) mod 16)%nat)
        else if (i <? 48)%nat then
          (N.lxor B (N.lxor C D), ((3 * i + 5) mod 16)%nat)
        else
          (N.lxor C (N.lor B (not32 D)), ((7 * i) mod 16)%nat) in
      let F := add32 (add32 (add32 F A) (nth i md5_K 0)) (nth g M 0) in
      [D; add32 B (rotl32 (nth i md5_S 0) F); B; C]
  | _ => st
  end.

Definition md5_block (h : list N) (block : bytes) : list N :=
  zip_with add32 h (fold_left (md5_step (le_words block)) (seq 0 64) h).

(** [hashlib.md5(msg).digest()] *)
Definition md5 (msg : bytes) : bytes :=
  let padded := md5_pad msg in
  let h := fold_left md5_block (chunks (length padded / 64) padded) md5_H0 in
  concat (map (le_bytes 4) h).

(** [MockClient.__init__]: both keys end in the first sixteen hexadecimal
    digits of the MD5 digest of the name. *)
Definition new_client (name : str) : result MockClient :=
  n1 ← encode name;
  n2 ← encode name;
  Ok {| name := name;
        ed25519_key :=
          name ++ py "_ed25519_key_" ++ take 16 (hexdigest (md5 n1));
        x25519_key :=
          name ++ py "_x25519_key_" ++ take 16 (hexdigest (md5 n2));
        contacts := ∅ |}.

(** ** [SecureMessagingDemo] *)

Record SecureMessagingDemo := {
  server : MockServer;
  demo_clients : gmap str MockClient;
  data_dir : str
}.

(** [SecureMessagingDemo.__init__] (the directory it creates is left out) *)
Definition new_demo : SecureMessagingDemo :=
  {| server := new_server; demo_clients := ∅; data_dir := py "./demo_data" |}.

(** [SecureMessagingDemo.create_client] *)
Definition create_client (self : SecureMessagingDemo) (name : str)
  : result MockClient * SecureMessagingDemo :=
  match new_client name with
  | Ok client =>
      (Ok client,
       {| server := server self;
          demo_clients := <[name := client]> (demo_clients self);
          data_dir := data_dir self |})
  | Raise e => (Raise e, self)
  end.

(** ** Sequences of calls on a server *)

Inductive call : Type :=
  | RegisterClient (client_id public_key : str)
  | SendMessage (sender_id recipient_id encrypted_content signature
                 message_id now : str)
  | GetMessagesForClient (client_id : str)
  | GetAllMessages.

(** The server after one call, and after a sequence of calls. *)
Definition after (s : MockServer) (c : call) : MockServer :=
  match c with
  | RegisterClient client_id public_key =>
      (register_client s client_id public_key).2
  | SendMessage sender_id recipient_id encrypted_content signature
      message_id now =>
      (send_message s sender_id recipient_id encrypted_content signature
         message_id now).2
  | GetMessagesForClient client_id => (get_messages_for_client s client_id).2
  | GetAllMessages => (get_all_messages s).2
  end.
Definition run (calls : list call) (s : MockServer) : MockServer :=
  fold_left after calls s.

(** The example clients after the exchange of keys. *)
Definition alice1 : MockClient := add_contact alice (py "bob") (x25519_key bob).
Definition bob1 : MockClient := add_contact bob (py "alice") (x25519_key alice).

(** A server on which alice has also stored, for bob, a properly signed
    message whose payload is the single character "Q". *)
Definition c_bad : str := py "encrypted_Q_x".
Definition s_bad : MockServer :=
  match sign alice c_bad with
  | Ok sig =>
      (send_message s_one (py "alice") (py "bob") c_bad sig (py "msg_003")
         (py "2024-01-01T10:00:02")).2
  | Raise _ => s_one
  end.

(** The messages [receive_messages] decrypts: those addressed to the
    client whose sender is one of its contacts. *)
Definition readable (self : MockClient) (msg : Message) : Prop :=
  msg_recipient_id msg = name self
  ∧ is_Some (contacts self !! msg_sender_id msg).

#[global] Instance readable_dec self msg : Decision (readable self msg).
Proof. unfold readable. apply _. Defined.

(** The characters of a hexadecimal digest. *)
Definition hex_char (c : N) : Prop := c ∈ py "0123456789abcdef".

(** * Properties *)

(** Division and remainder by a constant are linear arithmetic. *)
Ltac Zify.zify_post_hook ::= Z.to_euclidean_division_equations.

(** ** Checking a decidable property of small numbers by enumeration *)

Lemma below_forallb (P : N → bool) (n : nat) :
  forallb P (map N.of_nat (seq 0 n)) = true →
  ∀ x, x < N.of_nat n → P x = true.
Proof.
  intros H x Hx. rewrite forallb_forall in H. apply H.
  apply in_map_iff. exists (N.to_nat x). split; [lia|].
  apply in_seq. lia.
Qed.

Lemma below_forallb2 (P : N → N → bool) (n m : nat) :
  forallb (λ x, forallb (P x) (map N.of_nat (seq 0 m)))
    (map N.of_nat (seq 0 n)) = true →
  ∀ x y, x < N.of_nat n → y < N.of_nat m → P x y = true.
Proof.
  intros H x y Hx Hy.
  apply (below_forallb (P x) m); [|done].
  by apply (below_forallb (λ x, forallb (P x) (map N.of_nat (seq 0 m))) n).
Qed.

(** ** Test vectors for the hash functions *)

Example sha256_constants :
  take 4 sha256_K = [0x428a2f98; 0x71374491; 0xb5c0fbcf; 0xe9b5dba5]
  ∧ last sha256_K = Some 0xc67178f2
  ∧ take 2 sha256_H0 = [0x6a09e667; 0xbb67ae85]
  ∧ last sha256_H0 = Some 0x5be0cd19.
Proof. repeat apply conj; vm_compute; reflexivity. Qed.

Example sha256_abc :
  hexdigest (sha256 (py "abc")) =
  py "ba7816bf8f01cfea414140de5dae2223b00361a396177a9cb410ff61f20015ad".
Proof. vm_compute. reflexivity. Qed.

Example sha256_empty :
  hexdigest (sha256 []) =
  py "e3b0c44298fc1c149afbf4c8996fb92427ae41e4649b934ca495991b7852b855".
Proof. vm_compute. reflexivity. Qed.

Example hmac_rfc4231_case2 :
  hmac_hex64 (py "Jefe") (py "what do ya want for nothing?") =
  Ok (py "5bdcc146bf60754e6a042426089575c75a003f089d2739839dec58b964ec3843").
Proof. vm_compute. reflexivity. Qed.

(** ** UTF-8: decoding undoes encoding *)

Lemma lor_C0 v : v < 32 → N.lor 0xC0 v = 0xC0 + v.
Proof.
  intros H. apply N.eqb_eq.
  by apply (below_forallb (λ v, N.lor 0xC0 v =? 0xC0 + v) 32).
Qed.

Lemma lor_E0 v : v < 16 → N.lor 0xE0 v = 0xE0 + v.
Proof.
  intros H. apply N.eqb_eq.
  by apply (below_forallb (λ v, N.lor 0xE0 v =? 0xE0 + v) 16).
Qed.

Lemma lor_F0 v : v < 8 → N.lor 0xF0 v = 0xF0 + v.
Proof.
  intros H. apply N.eqb_eq.
  by apply (below_forallb (λ v, N.lor 0xF0 v =? 0xF0 + v) 8).
Qed.

Lemma lor_80 v : N.lor 0x80 (N.land v 0x3F) = 0x80 + v mod 64.
Proof.
  change 0x3F with (N.ones 6). rewrite N.land_ones.
  change (2 ^ 6) with 64.
  assert (v mod 64 < 64) as H by (apply N.mod_lt; lia).
  revert H. generalize (v mod 64). intros w H. apply N.eqb_eq.
  by apply (below_forallb (λ v, N.lor 0x80 v =? 0x80 + v) 64).
Qed.

(** The bytes of a scalar value, in arithmetic form. *)
Lemma utf8_encode_char_arith c :
  scalar c →
  utf8_encode_char c =
    Ok (if c <? 0x80 then [c]
        else if c <? 0x800 then [0xC0 + c / 64; 0x80 + c mod 64]
        else if c <? 0x10000 then
          [0xE0 + c / 4096; 0x80 + (c / 64) mod 64; 0x80 + c mod 64]
        else [0xF0 + c / 262144; 0x80 + (c / 4096) mod 64;
              0x80 + (c / 64) mod 64; 0x80 + c mod 64]).
Proof.
  intros [Hlt Hs]. unfold utf8_encode_char. rewrite Hs, !lor_80.
  rewrite !N.shiftr_div_pow2.
  change (2 ^ 6) with 64. change (2 ^ 12) with 4096.
  change (2 ^ 18) with 262144.
  destruct (N.ltb_spec c 0x80); [done|].
  destruct (N.ltb_spec c 0x800); [by rewrite lor_C0 by lia|].
  destruct (N.ltb_spec c 0x10000); [by rewrite lor_E0 by lia|].
  destruct (N.ltb_spec c 0x110000); [by rewrite lor_F0 by lia|lia].
Qed.

(** Settle the tests of a conditional whose outcome arithmetic decides. *)
Ltac decide_tests :=
  repeat match goal with
    | |- context [if ?b then _ else _] =>
        first [ replace b with true by lia | replace b with false by lia ]
    end.

Lemma decode_encode_char c b rest :
  scalar c → utf8_encode_char c = Ok b →
  decode (b ++ rest) = cons c <$> decode rest.
Proof.
  intros Hc. rewrite (utf8_encode_char_arith c Hc). intros [= <-].
  destruct Hc as [Hlt Hs]. unfold is_surrogate in Hs.
  destruct (N.ltb_spec c 0x80) as [H1|H1].
  { cbn [app decode]. by decide_tests. }
  destruct (N.ltb_spec c 0x800) as [H2|H2].
  { cbn [app decode]. unfold is_continuation. decide_tests.
    rewrite N.shiftl_mul_pow2. do 2 f_equal. lia. }
  destruct (N.ltb_spec c 0x10000) as [H3|H3].
  { cbn [app decode]. unfold is_continuation.
    destruct (128 + (c / 64) mod 64 <? 0xA0) eqn:E;
      decide_tests; cbn [negb orb]; rewrite !N.shiftl_mul_pow2;
      do 2 f_equal; lia. }
  cbn [app decode]. unfold is_continuation.
  destruct (128 + (c / 4096) mod 64 <? 0x90) eqn:E;
    decide_tests; cbn [negb orb]; rewrite !N.shiftl_mul_pow2;
    do 2 f_equal; lia.
Qed.

Lemma utf8_encode_char_bytes c b :
  utf8_encode_char c = Ok b → Forall (λ x, x < 256) b.
Proof.
  unfold utf8_encode_char. rewrite !lor_80, !N.shiftr_div_pow2.
  change (2 ^ 6) with 64. change (2 ^ 12) with 4096.
  change (2 ^ 18) with 262144.
  repeat case_match; intros [= <-]; repeat constructor;
    rewrite ?lor_C0, ?lor_E0, ?lor_F0; lia.
Qed.

Lemma encode_bytes s b : encode s = Ok b → Forall (λ x, x < 256) b.
Proof.
  revert b. induction s as [|c s IH]; intros b; cbn [encode].
  { intros [= <-]. constructor. }
  destruct (utf8_encode_char c) as [bc|] eqn:Ec; [|done].
  destruct (encode s) as [bs|] eqn:Es; [|done].
  cbn. intros [= <-]. apply Forall_app. split.
  - by eapply utf8_encode_char_bytes.
  - by apply IH.
Qed.

(** [encode] returns exactly on the strings of scalar values. *)
Lemma encode_total s : encodable s → ∃ b, encode s = Ok b.
Proof.
  induction 1 as [|c s Hc _ [bs IH]]; [by exists []|].
  cbn [encode]. rewrite (utf8_encode_char_arith c Hc), IH. cbn. eauto.
Qed.

Lemma encode_surrogate s1 c s2 :
  is_surrogate c = true → encodable s1 →
  encode (s1 ++ c :: s2) = Raise UnicodeEncodeError.
Proof.
  intros Hc. induction 1 as [|c1 s1 Hc1 _ IH].
  - cbn [app encode]. unfold utf8_encode_char. rewrite Hc.
    unfold is_surrogate in Hc. by decide_tests.
  - cbn [app encode]. rewrite (utf8_encode_char_arith c1 Hc1), IH. done.
Qed.

Lemma decode_encode s b : encodable s → encode s = Ok b → decode b = Ok s.
Proof.
  intros Hs. revert b. induction Hs as [|c s Hc _ IH]; intros b.
  { by intros [= <-]. }
  cbn [encode].
  destruct (utf8_encode_char c) as [bc|] eqn:Ec; [|done].
  destruct (encode s) as [bs|] eqn:Es; [|done].
  cbn. intros [= <-].
  rewrite (decode_encode_char c bc bs Hc Ec), (IH bs eq_refl). done.
Qed.

(** On ASCII both directions are the identity. *)
Lemma decode_ascii b : Forall (λ x, x < 128) b → decode b = Ok b.
Proof.
  induction 1 as [|x b Hx _ IH]; [done|].
  cbn [decode]. decide_tests. by rewrite IH.
Qed.

(** ** Base64: decoding undoes encoding *)

Lemma list_ind3 {A} (P : list A → Prop) :
  P [] → (∀ x, P [x]) → (∀ x y, P [x; y]) →
  (∀ x y z l, P l → P (x :: y :: z :: l)) → ∀ l, P l.
Proof.
  intros H0 H1 H2 H3. fix IH 1.
  intros [|x [|y [|z l]]]; [exact H0 | apply H1 | apply H2 |].
  apply H3, IH.
Qed.

(** Every character [b64encode] writes is ASCII, and none is ['_']. *)
Lemma b2a_char v : b2a v < 128 ∧ b2a v ≠ 95.
Proof.
  destruct (N.ltb_spec v 64) as [H|H].
  - assert ((b2a v <? 128) && negb (b2a v =? 95) = true) as E; [|lia].
    apply (below_forallb (λ v, (b2a v <? 128) && negb (b2a v =? 95)) 64);
      [vm_compute; reflexivity | done].
  - unfold b2a. rewrite nth_overflow; [done|]. cbn. lia.
Qed.

(** On the 64 values the two tables are inverse, and no value is written
    as the pad character. *)
Lemma a2b_b2a v :
  v < 64 → table_a2b_base64 (b2a v) = Some v ∧ (b2a v =? BASE64_PAD) = false.
Proof.
  intros H.
  pose (P := λ v, match table_a2b_base64 (b2a v) with
                  | Some v' => (v' =? v) && negb (b2a v =? BASE64_PAD)
                  | None => false
                  end).
  assert (P v = true) as E.
  { apply (below_forallb P 64); [vm_compute; reflexivity | done]. }
  unfold P in E. destruct (table_a2b_base64 (b2a v)) as [v'|]; [|done].
  split; [f_equal|]; lia.
Qed.

Section a2b_steps.
Context (v : N) (Hv : v < 64) (data : bytes) (leftchar pads : N).

Lemma a2b_step0 :
  a2b_base64_loop (b2a v :: data) 0 leftchar pads
  = a2b_base64_loop data 1 v 0.
Proof.
  destruct (a2b_b2a v Hv) as [E1 E2]. cbn [a2b_base64_loop].
  by rewrite E1, E2.
Qed.

Lemma a2b_step1 :
  a2b_base64_loop (b2a v :: data) 1 leftchar pads
  = cons (N.land (N.lor (N.shiftl leftchar 2) (N.shiftr v 4)) 0xFF)
      <$> a2b_base64_loop data 2 (N.land v 0xF) 0.
Proof.
  destruct (a2b_b2a v Hv) as [E1 E2]. cbn [a2b_base64_loop].
  by rewrite E1, E2.
Qed.

Lemma a2b_step2 :
  a2b_base64_loop (b2a v :: data) 2 leftchar pads
  = cons (N.land (N.lor (N.shiftl leftchar 4) (N.shiftr v 2)) 0xFF)
      <$> a2b_base64_loop data 3 (N.land v 0x3) 0.
Proof.
  destruct (a2b_b2a v Hv) as [E1 E2]. cbn [a2b_base64_loop].
  by rewrite E1, E2.
Qed.

Lemma a2b_step3 :
  a2b_base64_loop (b2a v :: data) 3 leftchar pads
  = cons (N.land (N.lor (N.shiftl leftchar 6) v) 0xFF)
      <$> a2b_base64_loop data 0 0 0.
Proof.
  destruct (a2b_b2a v Hv) as [E1 E2]. cbn [a2b_base64_loop].
  by rewrite E1, E2.
Qed.
End a2b_steps.

Lemma group_check_all x y : x < 256 → y < 256 → group_check x y = true.
Proof.
  apply (below_forallb2 group_check 256 256). vm_compute. reflexivity.
Qed.

Lemma a2b_b64encode b :
  Forall (λ x, x < 256) b →
  ∀ leftchar, a2b_base64_loop (b64encode b) 0 leftchar 0 = Ok b.
Proof.
  induction b as [|x|x y|x y z b IH] using list_ind3; intros Hb lc.
  - done.
  - apply Forall_cons in Hb as [Hx _].
    pose proof (group_check_all x 0 Hx ltac:(lia)) as G.
    unfold group_check in G. cbn zeta in G.
    rewrite !andb_true_iff, !N.ltb_lt, !N.eqb_eq in G.
    cbn [b64encode].
    rewrite a2b_step0, a2b_step1 by tauto.
    destruct G as [[[[[[[[[[[[? ?] ?] ?] ?] ?] ?] E] ?] ?] ?] ?] ?].
    rewrite E. done.
  - apply Forall_cons in Hb as [Hx Hb]. apply Forall_cons in Hb as [Hy _].
    pose proof (group_check_all x y Hx Hy) as G.
    pose proof (group_check_all y 0 Hy ltac:(lia)) as G'.
    unfold group_check in G, G'. cbn zeta in G, G'.
    rewrite !andb_true_iff, !N.ltb_lt, !N.eqb_eq in G, G'.
    cbn [b64encode].
    rewrite a2b_step0, a2b_step1, a2b_step2 by tauto.
    destruct G as [[[[[[[[[[[[? ?] ?] ?] ?] ?] E1] ?] E2] ?] ?] ?] ?].
    destruct G' as [[[[[[[[[[[[? ?] ?] ?] ?] ?] ?] ?] ?] ?] E3] ?] ?].
    rewrite E1, E2, E3. done.
  - apply Forall_cons in Hb as [Hx Hb]. apply Forall_cons in Hb as [Hy Hb].
    apply Forall_cons in Hb as [Hz Hb].
    pose proof (group_check_all x y Hx Hy) as G.
    pose proof (group_check_all y z Hy Hz) as G'.
    pose proof (group_check_all z 0 Hz ltac:(lia)) as G''.
    unfold group_check in G, G', G''. cbn zeta in G, G', G''.
    rewrite !andb_true_iff, !N.ltb_lt, !N.eqb_eq in G, G', G''.
    cbn [b64encode].
    rewrite a2b_step0, a2b_step1, a2b_step2, a2b_step3 by tauto.
    destruct G as [[[[[[[[[[[[? ?] ?] ?] ?] ?] E1] ?] E2] ?] ?] ?] ?].
    destruct G' as [[[[[[[[[[[[? ?] ?] ?] ?] ?] ?] ?] ?] E3] ?] E4] ?].
    destruct G'' as [[[[[[[[[[[[? ?] ?] ?] ?] ?] ?] ?] ?] ?] ?] ?] E5].
    rewrite E1, E2, E3, E4, E5, (IH Hb 0). done.
Qed.

Lemma b64encode_chars b : Forall (λ c, c < 128 ∧ c ≠ 95) (b64encode b).
Proof.
  induction b as [|x|x y|x y z b IH] using list_ind3; cbn [b64encode];
    repeat first [ exact IH | constructor | apply b2a_char ];
    unfold BASE64_PAD; lia.
Qed.

Lemma b64decode_b64encode b :
  Forall (λ x, x < 256) b → b64decode (b64encode b) = Ok b.
Proof.
  intros Hb. unfold b64decode, a2b_base64.
  rewrite (a2b_b64encode b Hb).
  replace (forallb _ _) with true; [done|].
  symmetry. apply forallb_forall. intros c Hc.
  pose proof (b64encode_chars b) as H. rewrite Forall_forall in H.
  apply list_elem_of_In, H in Hc. lia.
Qed.

(** ** [startswith] and [split] on the shape [encrypt] produces *)

Lemma startswith_app p s : startswith (p ++ s) p = true.
Proof. induction p as [|c p IH]; [done|]. cbn. by rewrite N.eqb_refl, IH. Qed.

Lemma split_nonempty sep s : split sep s ≠ [].
Proof. destruct s as [|c s]; cbn; repeat case_match; done. Qed.

Lemma before_id sep s : Forall (λ c, c ≠ sep) s → before sep s = s.
Proof.
  induction 1 as [|c s Hc _ IH]; [done|].
  cbn. destruct (N.eqb_spec c sep); [done|]. by rewrite IH.
Qed.

(** The first part ends at the first separator, and a separator in the
    string leaves at least one more part. *)
Lemma split_before sep X Y :
  ∃ ps, split sep (X ++ sep :: Y) = before sep X :: ps ∧ ps ≠ [].
Proof.
  induction X as [|c X (ps & IH & Hps)]; cbn.
  - rewrite N.eqb_refl. eexists. split; [done|]. apply split_nonempty.
  - destruct (N.eqb_spec c sep).
    + eexists. split; [done|]. apply split_nonempty.
    + rewrite IH. eauto.
Qed.

Lemma split_app_sep sep A R :
  Forall (λ c, c ≠ sep) A → split sep (A ++ sep :: R) = A :: split sep R.
Proof.
  induction 1 as [|c A Hc _ IH]; cbn.
  - by rewrite N.eqb_refl.
  - destruct (N.eqb_spec c sep); [done|]. by rewrite IH.
Qed.

(** ** What [encrypt] returns and what [decrypt] reads *)

Lemma Ok_inj {A} (a b : A) : Ok a = Ok b → a = b.
Proof. by intros [= ->]. Qed.

Lemma encrypt_value self P K b :
  encode P = Ok b →
  encrypt self P K
  = Ok (py "encrypted_" ++ b64encode b ++ py "_" ++ take 8 K).
Proof.
  intros E. unfold encrypt. rewrite E. cbn [mbind result_bind].
  rewrite decode_ascii; [done|].
  eapply Forall_impl; [apply b64encode_chars|]. cbn. lia.
Qed.

(** [decrypt] looks at the prefix and at the text between the first two
    underscores only; the rest of the message and both keys are ignored. *)
Lemma decrypt_shape self X Y k :
  decrypt self (py "encrypted_" ++ X ++ py "_" ++ Y) k
  = (b ← b64decode (before 95 X); decode b).
Proof.
  unfold decrypt. rewrite startswith_app.
  change (py "encrypted_" ++ X ++ py "_" ++ Y)
    with (py "encrypted" ++ 95 :: (X ++ 95 :: Y)).
  rewrite split_app_sep.
  2:{ vm_compute. repeat constructor; lia. }
  destruct (split_before 95 X Y) as (ps & -> & Hps).
  destruct ps as [|p ps]; [done|]. reflexivity.
Qed.


Example hmac_long_key :
  hexdigest (hmac_sha256 (repeat 107 100) (repeat 109 200)) =
  py "a6bca6f4482167eeffadc0449a346c21ffe8f96177eceecaeb182b610f6128c8".
Proof. vm_compute. reflexivity. Qed.

(** The non-strict decoder on irregular input. *)
Example b64decode_skips_foreign : b64decode (py "Q_Q==") = Ok (py "A").
Proof. vm_compute. reflexivity. Qed.

Example b64decode_stops_at_padding : b64decode (py "QUI=QUI=") = Ok (py "AB").
Proof. vm_compute. reflexivity. Qed.

Example b64decode_incomplete_quad : b64decode (py "QQ=Q") = Raise BinasciiError.
Proof. vm_compute. reflexivity. Qed.

Example b64decode_non_ascii : b64decode [0xE9] = Raise ValueError.
Proof. vm_compute. reflexivity. Qed.

(** ** The claims about [encrypt] and [decrypt] *)

(** C1, as stated, fails: a Python [str] may hold a lone surrogate such as
    U+D800, which [message.encode()] refuses; [encrypt] then raises
    UnicodeEncodeError and there is nothing to decrypt. *)
Lemma round_trip_lone_surrogate :
  encrypt alice [0xD800] (x25519_key bob) = Raise UnicodeEncodeError
  ∧ ¬ round_trip alice bob [0xD800] (x25519_key bob) (x25519_key alice).
Proof. split; [vm_compute; reflexivity | vm_compute; discriminate]. Qed.

(** C1, amended: for every plaintext [P] that UTF-8 can encode (no lone
    surrogate), every recipient key [K] and every sender key [k],
    [encrypt] returns, and [decrypt] of its result returns exactly [P],
    whichever clients encrypt and decrypt. *)
Theorem encrypt_decrypt_round_trip self other P K k :
  encodable P → round_trip self other P K k.
Proof.
  intros HP. destruct (encode_total P HP) as [b E].
  unfold round_trip. rewrite (encrypt_value self P K b E).
  cbn [mbind result_bind]. rewrite decrypt_shape, before_id.
  - rewrite b64decode_b64encode by (by eapply encode_bytes).
    cbn [mbind result_bind]. by apply decode_encode.
  - eapply Forall_impl; [apply b64encode_chars|]. cbn. tauto.
Qed.

Lemma encrypt_decrypt_round_trip_witness :
  encodable [0x68; 0xE9; 0x20AC; 0x1F600]
  ∧ round_trip alice bob [0x68; 0xE9; 0x20AC; 0x1F600]
      (x25519_key bob) (x25519_key alice).
Proof.
  split; [| apply encrypt_decrypt_round_trip];
    apply (bool_decide_unpack _); vm_compute; reflexivity.
Defined.

(** C6, as stated, fails: [encrypt] draws on no randomness, so a second
    call with the same plaintext and key returns the same text. *)
Lemma encrypt_twice_identical :
  encrypt alice (py "hi") (x25519_key bob) = Ok (py "encrypted_aGk=_bob_x255")
  ∧ ¬ fresh alice alice (py "hi") (x25519_key bob).
Proof. split; [vm_compute; reflexivity | intros H; by apply H]. Qed.

(** C6, amended: [encrypt] is a deterministic function of the plaintext
    and of the first eight characters of the recipient key; any two calls
    with the same plaintext and key, by whichever client and in whichever
    client state, return identical outputs, namely "encrypted_", the
    base64 text of the UTF-8 bytes, "_" and the key prefix. *)
Theorem encrypt_deterministic self self' P K :
  encrypt self P K = encrypt self' P K
  ∧ encrypt self P K
    = (b ← encode P; Ok (py "encrypted_" ++ b64encode b ++ py "_" ++ take 8 K)).
Proof.
  split; [done|]. destruct (encode P) as [b|e] eqn:E.
  - by rewrite (encrypt_value self P K b E).
  - unfold encrypt. by rewrite E.
Qed.

(** C7, as stated, fails: in "encrypted_QQ==_bob_x255", the encryption of
    "A", replacing the first ciphertext character 'Q' by 'R' makes
    [decrypt] return the plaintext "E". *)
Lemma tampered_ciphertext_accepted :
  encrypt alice (py "A") (x25519_key bob) = Ok (py "encrypted_QQ==_bob_x255")
  ∧ tamper (py "encrypted_QQ==_bob_x255") 0 82 = py "encrypted_RQ==_bob_x255"
  ∧ decrypt bob (py "encrypted_RQ==_bob_x255") (x25519_key alice) = Ok (py "E")
  ∧ ¬ tamper_rejected alice bob (py "A") (x25519_key bob) (x25519_key alice) 0 82.
Proof.
  split; [vm_compute; reflexivity|].
  split; [vm_compute; reflexivity|].
  split; [vm_compute; reflexivity|].
  intros H. specialize (H (py "encrypted_QQ==_bob_x255")).
  vm_compute in H. by specialize (H eq_refl).
Qed.

(** C7, amended: [decrypt] does not authenticate the ciphertext.  When
    character [i] of the ciphertext portion of an encrypted message is
    replaced by [ch], [decrypt] does not take its DECRYPTION_FAILED branch:
    its outcome is the base64 and UTF-8 decoding of the changed portion up
    to its first underscore, which is an exception or a plaintext that
    may differ from the original. *)
Theorem decrypt_tampered self other P K k b c i ch :
  encode P = Ok b → encrypt self P K = Ok c →
  (i < length (b64encode b))%nat →
  decrypt other (tamper c i ch) k
  = (d ← b64decode (before 95 (<[i := ch]> (b64encode b))); decode d).
Proof.
  intros E Hc Hi. rewrite (encrypt_value self P K b E) in Hc.
  apply Ok_inj in Hc as <-. unfold tamper.
  pose proof (insert_app_r (py "encrypted_")
                (b64encode b ++ py "_" ++ take 8 K) i ch) as R.
  change (length (py "encrypted_")) with 10%nat in R.
  rewrite R, insert_app_l by done.
  apply decrypt_shape.
Qed.

Lemma decrypt_tampered_witness :
  encode (py "A") = Ok (py "A")
  ∧ encrypt alice (py "A") (x25519_key bob) = Ok (py "encrypted_QQ==_bob_x255")
  ∧ (0 < length (b64encode (py "A")))%nat
  ∧ decrypt bob (tamper (py "encrypted_QQ==_bob_x255") 0 82) (x25519_key alice)
    = (d ← b64decode (before 95 (<[0%nat := 82]> (b64encode (py "A"))));
       decode d).
Proof.
  assert (encode (py "A") = Ok (py "A")) as E by (vm_compute; reflexivity).
  assert (encrypt alice (py "A") (x25519_key bob)
          = Ok (py "encrypted_QQ==_bob_x255")) as Hc
    by (vm_compute; reflexivity).
  assert (0 < length (b64encode (py "A")))%nat as Hi by (vm_compute; lia).
  split; [exact E|]. split; [exact Hc|]. split; [exact Hi|].
  exact (decrypt_tampered alice bob (py "A") (x25519_key bob)
           (x25519_key alice) (py "A") _ 0%nat 82 E Hc Hi).
Defined.

(** C8: the outcome of [decrypt] does not depend on the key it is given,
    nor on the client that calls it; the same holds for
    [MockCrypto.decrypt] of [test_demo.py], which computes the same. *)
Theorem decrypt_ignores_key self other (m m' : TestDemo.MockCrypto) c k1 k2 :
  decrypt self c k1 = decrypt other c k2
  ∧ TestDemo.decrypt m c k1 = TestDemo.decrypt m' c k2
  ∧ TestDemo.decrypt m c k1 = decrypt self c k2.
Proof. done. Qed.

(** ** The claims about [MockServer] *)

Lemma test_demo_send_message : TestDemo.send_message = send_message.
Proof. reflexivity. Qed.


(** The example states are what the code reaches. *)
Example s_one_stored :
  encrypt alice (py "hi") (x25519_key bob) = Ok c_hi
  ∧ sign alice c_hi = Ok sig_hi
  ∧ (send_message s_alice (py "alice") (py "bob") c_hi sig_hi
       (py "msg_001") (py "2024-01-01T10:00:00")).1
    = Ok (MessageSent (py "msg_001"))
  ∧ length (messages s_one) = 1%nat
  ∧ length (messages s_two) = 2%nat.
Proof. repeat apply conj; vm_compute; reflexivity. Qed.

(** The scenario of the demonstration: alice and bob register and exchange
    keys, alice sends "hello" to bob; bob then reads it, a third client
    reads nothing, and the store is not consumed by reading. *)
Example scenario_hello :
  let s := (register_client s_alice (py "bob") (ed25519_key bob)).2 in
  let alice1 := add_contact alice (py "bob") (x25519_key bob) in
  let bob1 := add_contact bob (py "alice") (x25519_key alice) in
  let charlie := client_of (TestDemo.new_crypto (py "charlie")) in
  let '(r, s') :=
    client_send_message alice1 s (py "bob") (py "hello")
      (py "7f1c2a9e-0000-4000-8000-000000000001") (py "2024-01-01T10:00:00") in
  r = Ok tt
  ∧ receive_messages bob1 s'
    = (Ok [{| d_sender_id := py "alice";
              d_decrypted_content := py "hello";
              d_timestamp := py "2024-01-01T10:00:00" |}], s')
  ∧ receive_messages charlie s' = (Ok [], s')
  ∧ (client_send_message alice1 s (py "carol") (py "hello")
       (py "7f1c2a9e-0000-4000-8000-000000000002") (py "2024-01-01T10:00:01")).1
    = Raise ValueError.
Proof. vm_compute. repeat apply conj; reflexivity. Qed.

(** C2: a sender that is not in the registry gets the error response
    "Unknown sender: <sender_id>", and the server, its message store
    included, is the same after the call; likewise in [test_demo.py]. *)
Theorem send_message_unknown_sender s sid rid content sig mid now :
  clients s !! sid = None →
  send_message s sid rid content sig mid now
  = (Ok (Error (py "Unknown sender: " ++ sid)), s)
  ∧ TestDemo.send_message s sid rid content sig mid now
    = (Ok (Error (py "Unknown sender: " ++ sid)), s).
Proof.
  intros H. rewrite test_demo_send_message. unfold send_message.
  by rewrite H.
Qed.

Lemma send_message_unknown_sender_witness :
  clients s_one !! py "mallory" = None
  ∧ send_message s_one (py "mallory") (py "bob") c_hi sig_hi (py "msg_009")
      (py "2024-01-01T10:00:02")
    = (Ok (Error (py "Unknown sender: " ++ py "mallory")), s_one).
Proof.
  assert (clients s_one !! py "mallory" = None) as H
    by (vm_compute; reflexivity).
  split; [exact H|].
  exact (proj1 (send_message_unknown_sender s_one (py "mallory") (py "bob")
                  c_hi sig_hi (py "msg_009") (py "2024-01-01T10:00:02") H)).
Defined.

(** The two ways [send_message] ends for a registered sender. *)
Lemma send_message_rejects s sid key rid content sig mid now expected :
  clients s !! sid = Some key →
  hmac_hex64 key content = Ok expected →
  sig ≠ expected →
  send_message s sid rid content sig mid now
  = (Ok (Error (py "Invalid signature")), s).
Proof.
  intros Hk He Hne. unfold send_message. rewrite Hk, He.
  by rewrite bool_decide_eq_true_2.
Qed.

Lemma send_message_accepts s sid key rid content sig mid now :
  clients s !! sid = Some key →
  hmac_hex64 key content = Ok sig →
  send_message s sid rid content sig mid now
  = (Ok (MessageSent mid),
     {| clients := clients s;
        messages := messages s ++
          [{| msg_id := mid; msg_sender_id := sid;
              msg_recipient_id := rid; msg_content := content;
              msg_timestamp := now; msg_signature := sig |}] |}).
Proof.
  intros Hk He. unfold send_message. rewrite Hk, He.
  by rewrite bool_decide_eq_false_2 by (intros H; by apply H).
Qed.

(** C4, as stated, fails: [send_message] never looks at the stored ids.
    With "msg_001" already stored, sending again under "msg_001" (the
    sender registered, the signature valid) is answered with MessageSent
    and a second record with that id is stored. *)
Lemma duplicate_message_id_stored :
  count_id (py "msg_001") (messages s_one) = 1%nat
  ∧ (let '(r, s') :=
       send_message s_one (py "alice") (py "bob") c_hi sig_hi (py "msg_001")
         (py "2024-01-01T10:00:01") in
     r = Ok (MessageSent (py "msg_001"))
     ∧ count_id (py "msg_001") (messages s') = 2%nat)
  ∧ ¬ duplicate_rejected s_one (py "alice") (py "bob") c_hi sig_hi
        (py "msg_001") (py "2024-01-01T10:00:01").
Proof.
  split; [vm_compute; reflexivity|]. split.
  - vm_compute. split; reflexivity.
  - unfold duplicate_rejected.
    destruct (send_message _ _ _ _ _ _ _) as [r s'] eqn:E.
    vm_compute in E. injection E as <- <-.
    intros [[e He] _]. discriminate He.
Qed.

(** C4, amended: [send_message] performs no check of the message id.
    When a stored message already has the id, a call from a registered
    sender with a valid signature under the same id is answered with
    MessageSent for that id, and the store then holds one more record
    with that id than before, so at least two. *)
Theorem send_message_duplicate_id s sid key rid content sig mid now :
  clients s !! sid = Some key →
  hmac_hex64 key content = Ok sig →
  (∃ m, m ∈ messages s ∧ msg_id m = mid) →
  let '(r, s') := send_message s sid rid content sig mid now in
  r = Ok (MessageSent mid)
  ∧ count_id mid (messages s') = S (count_id mid (messages s))
  ∧ (2 ≤ count_id mid (messages s'))%nat.
Proof.
  intros Hk He (m & Hm & Hid).
  rewrite (send_message_accepts s sid key rid content sig mid now Hk He).
  cbn [messages].
  assert (count_id mid (messages s ++
            [{| msg_id := mid; msg_sender_id := sid; msg_recipient_id := rid;
                msg_content := content; msg_timestamp := now;
                msg_signature := sig |}])
          = S (count_id mid (messages s))) as Hcount.
  { unfold count_id. rewrite filter_app, length_app.
    rewrite filter_cons_True by done. cbn. lia. }
  split; [done|]. split; [done|]. rewrite Hcount.
  assert (0 < count_id mid (messages s))%nat; [|lia].
  unfold count_id. apply list_elem_of_split in Hm as (l1 & l2 & ->).
  rewrite filter_app, filter_cons_True, length_app by done. cbn. lia.
Qed.

Lemma send_message_duplicate_id_witness :
  clients s_one !! py "alice" = Some (ed25519_key alice)
  ∧ hmac_hex64 (ed25519_key alice) c_hi = Ok sig_hi
  ∧ (∃ m, m ∈ messages s_one ∧ msg_id m = py "msg_001")
  ∧ (let '(r, s') :=
       send_message s_one (py "alice") (py "bob") c_hi sig_hi (py "msg_001")
         (py "2024-01-01T10:00:01") in
     r = Ok (MessageSent (py "msg_001"))
     ∧ count_id (py "msg_001") (messages s')
       = S (count_id (py "msg_001") (messages s_one))
     ∧ (2 ≤ count_id (py "msg_001") (messages s'))%nat).
Proof.
  assert (clients s_one !! py "alice" = Some (ed25519_key alice)) as Hk
    by (vm_compute; reflexivity).
  assert (hmac_hex64 (ed25519_key alice) c_hi = Ok sig_hi) as He
    by (vm_compute; reflexivity).
  assert (∃ m, m ∈ messages s_one ∧ msg_id m = py "msg_001") as Hm.
  { eexists. split; [|shelve]. vm_compute. left. Unshelve. reflexivity. }
  split; [exact Hk|]. split; [exact He|]. split; [exact Hm|].
  exact (send_message_duplicate_id s_one (py "alice") (ed25519_key alice)
           (py "bob") c_hi sig_hi (py "msg_001") (py "2024-01-01T10:00:01")
           Hk He Hm).
Defined.

(** C5, as stated, fails for [MockServer.get_messages] of [test_demo.py]:
    with two messages stored for "bob" it answers with the later one
    alone, and for a client without messages it answers with the error
    response "No messages found". *)
Lemma get_messages_latest_only :
  length (filter (λ m, msg_recipient_id m = py "bob") (messages s_two)) = 2%nat
  ∧ ¬ returns_all (records_of (TestDemo.get_messages s_two (py "bob")).1)
        s_two (py "bob")
  ∧ TestDemo.get_messages s_two (py "charlie")
    = (Error (py "No messages found"), s_two)
  ∧ ¬ returns_all (records_of (TestDemo.get_messages s_two (py "charlie")).1)
        s_two (py "charlie").
Proof.
  split; [vm_compute; reflexivity|].
  split; [vm_compute; discriminate|].
  split; [vm_compute; reflexivity|].
  vm_compute; discriminate.
Qed.

Lemma sublist_filter_max {A} (P : A → Prop) `{∀ x, Decision (P x)} l' l :
  l' `sublist_of` l → Forall P l' → l' `sublist_of` filter P l.
Proof.
  induction 1 as [|x l1 l2 _ IH|x l1 l2 _ IH]; intros HP.
  - constructor.
  - apply Forall_cons in HP as [Hx HP].
    rewrite filter_cons_True by done. constructor. by apply IH.
  - destruct (decide (P x)).
    + rewrite filter_cons_True by done. constructor. by apply IH.
    + rewrite filter_cons_False by done. by apply IH.
Qed.

Lemma filter_none {A} (P : A → Prop) `{∀ x, Decision (P x)} l :
  Forall (λ x, ¬ P x) l → filter P l = [].
Proof.
  induction 1 as [|x l Hx _ IH]; [done|].
  by rewrite filter_cons_False.
Qed.

(** C5, amended: [MockServer.get_messages_for_client] of
    [demo_complete.py] returns the stored records addressed to the client,
    all of them and in storage order (the longest subsequence of the store
    with that recipient, hence the empty list when there is none), and
    leaves the server unchanged.  [MockServer.get_messages] of
    [test_demo.py] also leaves the server unchanged, but answers with the
    last stored record addressed to the client alone, and with the error
    response "No messages found" when there is none. *)
Theorem get_messages_for_client_all s cid :
  (let '(l, s') := get_messages_for_client s cid in
   s' = s
   ∧ l `sublist_of` messages s
   ∧ (∀ m, m ∈ l ↔ m ∈ messages s ∧ msg_recipient_id m = cid)
   ∧ (∀ l', l' `sublist_of` messages s →
            Forall (λ m, msg_recipient_id m = cid) l' → l' `sublist_of` l))
  ∧ (let '(r, s') := TestDemo.get_messages s cid in
     s' = s
     ∧ (Forall (λ m, msg_recipient_id m ≠ cid) (messages s) →
        r = Error (py "No messages found"))
     ∧ (∀ pre m post, messages s = pre ++ m :: post →
          msg_recipient_id m = cid →
          Forall (λ m, msg_recipient_id m ≠ cid) post →
          r = MessageReceived m)).
Proof.
  split.
  - unfold get_messages_for_client.
    split; [done|]. split; [apply sublist_filter|]. split.
    + intros m. rewrite list_elem_of_filter. tauto.
    + intros l' Hsub Hall. by apply sublist_filter_max.
  - unfold TestDemo.get_messages.
    destruct (last _) as [m0|] eqn:E.
    + split; [done|]. split.
      * intros Hnone.
        pose proof (last_filter_Some _ _ _ E) as (l1 & l2 & Hs & _).
        rewrite Hs, Forall_app, Forall_cons in Hnone.
        apply last_Some_elem_of, list_elem_of_filter in E as [? _].
        tauto.
      * intros pre m post Hs Hm Hpost. f_equal.
        rewrite Hs, filter_app, filter_cons_True in E by done.
        rewrite (filter_none _ post) in E by done.
        rewrite last_snoc in E. congruence.
    + split; [done|]. split; [done|].
      intros pre m post Hs Hm _.
      rewrite Hs, filter_app, filter_cons_True in E by done.
      apply last_None in E. by destruct (filter _ pre).
Qed.

(** C9: [register_client] stores the supplied key under the client id
    whether or not the id was registered before (the previous key is
    replaced), leaves every other entry and the message store as they
    were, and always answers Registered with the fixed server key, so
    never with an error response; likewise in [test_demo.py]. *)
Theorem register_client_overwrites s cid key :
  (let '(r, s') := register_client s cid key in
   r = Registered SERVER_PUBLIC_KEY
   ∧ (∀ e, r ≠ Error e)
   ∧ clients s' !! cid = Some key
   ∧ (∀ other, other ≠ cid → clients s' !! other = clients s !! other)
   ∧ messages s' = messages s)
  ∧ TestDemo.register_client s cid key = register_client s cid key.
Proof.
  split; [|done]. unfold register_client. cbn [clients messages].
  split; [done|]. split; [done|].
  split; [apply lookup_insert_eq|]. split; [|done].
  intros other Hne. by apply lookup_insert_ne.
Qed.

(** C10: whatever the arguments and the outcome of [send_message], the
    records stored before the call are a prefix of the records stored
    after it, at most one record is added, and the registry is the same. *)
Theorem send_message_append_only s sid rid content sig mid now :
  let s' := (send_message s sid rid content sig mid now).2 in
  messages s `prefix_of` messages s'
  ∧ (length (messages s') ≤ S (length (messages s)))%nat
  ∧ clients s' = clients s.
Proof.
  unfold send_message. repeat case_match; cbn [snd messages clients];
    rewrite ?length_app; cbn [length];
    (split; [try done; by apply prefix_app_r | split; [lia | done]]).
Qed.


(** * Further properties of the code *)

(** ** Test vectors for MD5 and the constructor *)

Example md5_vectors :
  hexdigest (md5 []) = py "d41d8cd98f00b204e9800998ecf8427e"
  ∧ hexdigest (md5 (py "abc")) = py "900150983cd24fb0d6963f7d28e17f72"
  ∧ hexdigest (md5 (repeat 97 100)) = py "36a92cc94a9e0fa21f625f8bfb007adf".
Proof. repeat apply conj; vm_compute; reflexivity. Qed.

Example new_client_sugar :
  (c ← new_client (py "sugar"); Ok (get_public_keys c))
  = Ok (py "sugar_ed25519_key_ada15bd1a5ddf0b7",
        py "sugar_x25519_key_ada15bd1a5ddf0b7").
Proof. vm_compute. reflexivity. Qed.

(** ** When [encode] returns *)

Lemma utf8_encode_char_Ok c b : utf8_encode_char c = Ok b → scalar c.
Proof.
  unfold utf8_encode_char, scalar.
  destruct (is_surrogate c) eqn:Es; unfold is_surrogate in Es;
    repeat case_match; intros [= <-]; lia.
Qed.

Lemma utf8_encode_char_Raise c e :
  utf8_encode_char c = Raise e → e = UnicodeEncodeError.
Proof. unfold utf8_encode_char. repeat case_match; by intros [= <-]. Qed.

Lemma encode_Ok s b : encode s = Ok b → encodable s.
Proof.
  revert b. induction s as [|c s IH]; intros b; [constructor|].
  cbn [encode]. destruct (utf8_encode_char c) as [bc|] eqn:Ec; [|done].
  destruct (encode s) as [bs|] eqn:Es; [|done]. intros _.
  constructor; [by eapply utf8_encode_char_Ok | by eapply IH].
Qed.

Lemma encode_Raise s e : encode s = Raise e → e = UnicodeEncodeError.
Proof.
  induction s as [|c s IH]; [done|]. cbn [encode].
  destruct (utf8_encode_char c) as [bc|e'] eqn:Ec.
  - destruct (encode s) as [bs|e'']; [done|]. cbn. intros [= <-]. by apply IH.
  - cbn. intros [= <-]. by eapply utf8_encode_char_Raise.
Qed.

Lemma encode_not_encodable s :
  ¬ encodable s → encode s = Raise UnicodeEncodeError.
Proof.
  intros H. destruct (encode s) as [b|e] eqn:E.
  - destruct H. by eapply encode_Ok.
  - by rewrite (encode_Raise s e E).
Qed.

Lemma encodable_ascii s : Forall (λ c, c < 128) s → encodable s.
Proof.
  intros H. eapply Forall_impl; [exact H|].
  intros c Hc. unfold scalar, is_surrogate. cbn in Hc. lia.
Qed.

Lemma encodable_app s1 s2 : encodable (s1 ++ s2) ↔ encodable s1 ∧ encodable s2.
Proof. apply Forall_app. Qed.


(** ** The shape of the digests *)

Lemma hex_digit_char v : hex_char (hex_digit v).
Proof.
  unfold hex_char, hex_digit.
  destruct (Nat.lt_ge_cases (N.to_nat v) 16) as [H|H].
  - apply list_elem_of_In, nth_In. exact H.
  - rewrite nth_overflow by exact H. vm_compute. left.
Qed.


Lemma hexdigest_chars b : Forall hex_char (hexdigest b).
Proof.
  unfold hexdigest. apply Forall_concat, Forall_map, Forall_forall.
  intros x _. repeat apply Forall_cons_2; [apply hex_digit_char..|constructor].
Qed.

Lemma length_hexdigest b : length (hexdigest b) = (2 * length b)%nat.
Proof.
  unfold hexdigest. induction b as [|x b IH]; [done|].
  cbn [map concat app length]. rewrite IH. lia.
Qed.

Lemma length_fold_left {A B} (f : list A → B → list A) (l : list B) h :
  (∀ st x, length (f st x) = length st) →
  length (fold_left f l h) = length h.
Proof.
  intros Hf. revert h. induction l as [|x l IH]; intros h; [done|].
  cbn. by rewrite IH, Hf.
Qed.

Lemma length_words_bytes (f : N → list N) (h : list N) n :
  (∀ x, length (f x) = n) → length (concat (map f h)) = (n * length h)%nat.
Proof.
  intros Hf. induction h as [|x h IH]; cbn; [lia|].
  rewrite length_app, IH, Hf. lia.
Qed.

Lemma length_sha256 msg : length (sha256 msg) = 32%nat.
Proof.
  unfold sha256. rewrite (length_words_bytes (be_bytes 4) _ 4).
  2:{ intros x. unfold be_bytes. by rewrite length_map, length_rev, length_seq. }
  rewrite length_fold_left; [done|].
  intros st block. unfold sha256_block.
  rewrite length_zip_with, length_fold_left; [lia|].
  intros st' kw. unfold sha256_round.
  by destruct st' as [|? [|? [|? [|? [|? [|? [|? [|? [|]]]]]]]]].
Qed.

Lemma length_md5 msg : length (md5 msg) = 16%nat.
Proof.
  unfold md5. rewrite (length_words_bytes (le_bytes 4) _ 4).
  2:{ intros x. unfold le_bytes. by rewrite length_map, length_seq. }
  rewrite length_fold_left; [done|].
  intros st block. unfold md5_block.
  rewrite length_zip_with, length_fold_left; [lia|].
  intros st' i. unfold md5_step.
  destruct st' as [|? [|? [|? [|? [|]]]]]; try done.
  by repeat case_match.
Qed.

(** The slice [[:64]] keeps the whole digest. *)
Lemma hmac_hex64_Ok key message k m :
  encode key = Ok k → encode message = Ok m →
  hmac_hex64 key message = Ok (hexdigest (hmac_sha256 k m)).
Proof.
  intros Ek Em. unfold hmac_hex64. rewrite Ek, Em. cbn [mbind result_bind].
  rewrite take_ge; [done|].
  rewrite length_hexdigest. unfold hmac_sha256. rewrite length_sha256. lia.
Qed.

Lemma hmac_hex64_shape key message sig :
  hmac_hex64 key message = Ok sig →
  length sig = 64%nat ∧ Forall hex_char sig.
Proof.
  unfold hmac_hex64.
  destruct (encode key) as [k|] eqn:Ek; [|done].
  destruct (encode message) as [m|] eqn:Em; [|done].
  cbn [mbind result_bind]. intros [= <-]. split.
  - rewrite length_take, length_hexdigest. unfold hmac_sha256.
    rewrite length_sha256. lia.
  - apply Forall_take, hexdigest_chars.
Qed.

(** ** The signature check of [MockServer.send_message] *)

(** C3, as stated, fails: for the registered sender "alice" and a content
    that holds the lone surrogate U+D800, [encrypted_content.encode()]
    raises UnicodeEncodeError while the signature is recomputed, so the
    call returns neither an error response nor MessageSent. *)
Lemma signature_check_lone_surrogate :
  clients s_alice !! py "alice" = Some (ed25519_key alice)
  ∧ send_message s_alice (py "alice") (py "bob") (py "encrypted_" ++ [0xD800])
      sig_hi (py "msg_001") (py "2024-01-01T10:00:00")
    = (Raise UnicodeEncodeError, s_alice)
  ∧ ¬ signature_checked s_alice (py "alice") (py "bob")
        (py "encrypted_" ++ [0xD800]) sig_hi (py "msg_001")
        (py "2024-01-01T10:00:00").
Proof.
  split; [vm_compute; reflexivity|].
  split; [vm_compute; reflexivity|].
  unfold signature_checked.
  destruct (send_message _ _ _ _ _ _ _) as [r s'] eqn:E.
  vm_compute in E. injection E as <- <-.
  intros [[[e He] _]|[He _]]; discriminate He.
Qed.

(** C3, amended: for every registered sender whose registry key and the
    encrypted content can both be encoded in UTF-8 (neither holds a lone
    surrogate), the server recomputes a signature [expected] from the
    registry entry over the content; when the supplied signature differs
    from it, [send_message] returns the error response "Invalid signature"
    and the server is unchanged; when it equals it, [send_message] returns
    MessageSent with the supplied message id and appends exactly one
    record, built from the arguments. *)
Theorem send_message_signature_check s sid key rid content sig mid now :
  clients s !! sid = Some key →
  encodable key → encodable content →
  ∃ expected,
    hmac_hex64 key content = Ok expected
    ∧ send_message s sid rid content sig mid now
      = if decide (sig = expected)
        then (Ok (MessageSent mid),
              {| clients := clients s;
                 messages := messages s ++
                   [{| msg_id := mid; msg_sender_id := sid;
                       msg_recipient_id := rid; msg_content := content;
                       msg_timestamp := now; msg_signature := sig |}] |})
        else (Ok (Error (py "Invalid signature")), s).
Proof.
  intros Hk Hkey Hcontent.
  destruct (encode_total key Hkey) as [k Ek].
  destruct (encode_total content Hcontent) as [m Em].
  pose proof (hmac_hex64_Ok key content k m Ek Em) as He.
  eexists. split; [exact He|].
  destruct (decide (sig = _)) as [->|Hne].
  - by apply send_message_accepts with key.
  - by eapply send_message_rejects.
Qed.

Lemma send_message_signature_check_witness :
  clients s_alice !! py "alice" = Some (ed25519_key alice)
  ∧ encodable (ed25519_key alice) ∧ encodable c_hi
  ∧ hmac_hex64 (ed25519_key alice) c_hi = Ok sig_hi
  ∧ send_message s_alice (py "alice") (py "bob") c_hi sig_hi (py "msg_001")
      (py "2024-01-01T10:00:00")
    = (Ok (MessageSent (py "msg_001")), s_one)
  ∧ send_message s_alice (py "alice") (py "bob") c_hi (py "00") (py "msg_001")
      (py "2024-01-01T10:00:00")
    = (Ok (Error (py "Invalid signature")), s_alice).
Proof.
  assert (clients s_alice !! py "alice" = Some (ed25519_key alice)) as Hk
    by (vm_compute; reflexivity).
  assert (encodable (ed25519_key alice)) as H1
    by (apply (bool_decide_unpack _); vm_compute; reflexivity).
  assert (encodable c_hi) as H2
    by (apply (bool_decide_unpack _); vm_compute; reflexivity).
  assert (hmac_hex64 (ed25519_key alice) c_hi = Ok sig_hi) as He
    by (vm_compute; reflexivity).
  split; [exact Hk|]. split; [exact H1|]. split; [exact H2|].
  split; [exact He|]. split.
  - destruct (send_message_signature_check s_alice (py "alice")
                (ed25519_key alice) (py "bob") c_hi sig_hi (py "msg_001")
                (py "2024-01-01T10:00:00") Hk H1 H2) as (expected & E & ->).
    rewrite He in E. apply Ok_inj in E as <-.
    vm_compute. reflexivity.
  - destruct (send_message_signature_check s_alice (py "alice")
                (ed25519_key alice) (py "bob") c_hi (py "00") (py "msg_001")
                (py "2024-01-01T10:00:00") Hk H1 H2) as (expected & E & ->).
    rewrite He in E. apply Ok_inj in E as <-.
    vm_compute. reflexivity.
Defined.

(** ** [encrypt], [decrypt] and [sign]: outcomes on every input *)

(** X1: [MockClient.encrypt] returns a ciphertext exactly when the
    plaintext can be encoded in UTF-8 (it holds no lone surrogate); on any
    other plaintext it raises UnicodeEncodeError, whatever the key. *)
Theorem encrypt_outcome self P K :
  if decide (encodable P)
  then ∃ c, encrypt self P K = Ok c
  else encrypt self P K = Raise UnicodeEncodeError.
Proof.
  case_decide as HP.
  - destruct (encode_total P HP) as [b E]. eexists.
    by apply encrypt_value.
  - unfold encrypt. by rewrite (encode_not_encodable P HP).
Qed.

Lemma decrypt_envelope self b Y k :
  Forall (λ x, x < 256) b →
  decrypt self (py "encrypted_" ++ b64encode b ++ py "_" ++ Y) k = decode b.
Proof.
  intros Hb. rewrite decrypt_shape, before_id.
  - by rewrite b64decode_b64encode.
  - eapply Forall_impl; [apply b64encode_chars|]. cbn. tauto.
Qed.

(** X2: on an envelope "encrypted_<base64 of b>_<anything>", [decrypt]
    returns the UTF-8 decoding of the bytes [b], whatever follows the
    second underscore and whatever the key; when [b] is not well-formed
    UTF-8 the decoding error is raised, not turned into
    "DECRYPTION_FAILED". *)
Theorem decrypt_envelope_decodes self b Y k :
  Forall (λ x, x < 256) b →
  decrypt self (py "encrypted_" ++ b64encode b ++ py "_" ++ Y) k = decode b.
Proof. apply decrypt_envelope. Qed.

Lemma decrypt_envelope_decodes_witness :
  Forall (λ x, x < 256) [0xFF]
  ∧ decrypt bob (py "encrypted_" ++ b64encode [0xFF] ++ py "_" ++ py "zz")
      (x25519_key alice)
    = Raise UnicodeDecodeError.
Proof.
  assert (Forall (λ x, x < 256) [0xFF]) as H by (repeat constructor).
  split; [exact H|].
  rewrite (decrypt_envelope_decodes bob [0xFF] (py "zz") (x25519_key alice) H).
  vm_compute. reflexivity.
Defined.

Lemma split_no_sep sep s : sep ∉ s → split sep s = [s].
Proof.
  induction s as [|c s IH]; [done|]. intros H.
  apply not_elem_of_cons in H as [Hc Hs]. cbn.
  destruct (N.eqb_spec c sep); [congruence|]. by rewrite IH.
Qed.

(** X3: [decrypt] answers "DECRYPTION_FAILED" for every message that does
    not start with "encrypted_", and for every message that does but
    holds no further underscore (fewer than three parts). *)
Theorem decrypt_failed self msg k :
  startswith msg (py "encrypted_") = false
  ∨ (∃ X, msg = py "encrypted_" ++ X ∧ 95 ∉ X) →
  decrypt self msg k = Ok DECRYPTION_FAILED.
Proof.
  intros [H|(X & -> & HX)]; unfold decrypt.
  - by rewrite H.
  - rewrite startswith_app.
    change (py "encrypted_" ++ X) with (py "encrypted" ++ 95 :: X).
    rewrite split_app_sep.
    2:{ vm_compute. repeat constructor; lia. }
    by rewrite (split_no_sep 95 X HX).
Qed.

Lemma decrypt_failed_witness :
  (startswith (py "encrypted_aGk=") (py "encrypted_") = false
   ∨ (∃ X, py "encrypted_aGk=" = py "encrypted_" ++ X ∧ 95 ∉ X))
  ∧ decrypt bob (py "encrypted_aGk=") (x25519_key alice) = Ok DECRYPTION_FAILED.
Proof.
  assert (startswith (py "encrypted_aGk=") (py "encrypted_") = false
          ∨ (∃ X, py "encrypted_aGk=" = py "encrypted_" ++ X ∧ 95 ∉ X)) as H.
  { right. exists (py "aGk="). split; [reflexivity|].
    apply (bool_decide_unpack _). vm_compute. reflexivity. }
  split; [exact H|].
  exact (decrypt_failed bob (py "encrypted_aGk=") (x25519_key alice) H).
Defined.

(** X4: when the text between the first two underscores holds a character
    that is not ASCII, [decrypt] raises ValueError (from
    [base64.b64decode]) instead of answering "DECRYPTION_FAILED". *)
Theorem decrypt_non_ascii_payload self X Y k c :
  c ∈ before 95 X → 128 ≤ c →
  decrypt self (py "encrypted_" ++ X ++ py "_" ++ Y) k = Raise ValueError.
Proof.
  intros Hin Hc. rewrite decrypt_shape. unfold b64decode.
  replace (forallb _ _) with false; [done|].
  symmetry. apply not_true_is_false. intros Hall.
  rewrite forallb_forall in Hall.
  apply list_elem_of_In, Hall in Hin. lia.
Qed.

Lemma decrypt_non_ascii_payload_witness :
  0xE9 ∈ before 95 [0x51; 0xE9]
  ∧ 128 ≤ 0xE9
  ∧ decrypt bob (py "encrypted_" ++ [0x51; 0xE9] ++ py "_" ++ py "bob")
      (x25519_key alice)
    = Raise ValueError.
Proof.
  assert (0xE9 ∈ before 95 [0x51; 0xE9]) as H1
    by (apply (bool_decide_unpack _); vm_compute; reflexivity).
  assert (128 ≤ 0xE9) as H2 by lia.
  split; [exact H1|]. split; [exact H2|].
  exact (decrypt_non_ascii_payload bob [0x51; 0xE9] (py "bob")
           (x25519_key alice) 0xE9 H1 H2).
Defined.

Lemma sign_Ok (self : MockClient) message :
  encodable (ed25519_key self) → encodable message →
  ∃ sig, sign self message = Ok sig
         ∧ length sig = 64%nat ∧ Forall hex_char sig.
Proof.
  intros Hk Hm. destruct (encode_total _ Hk) as [k Ek].
  destruct (encode_total _ Hm) as [m Em].
  unfold sign. rewrite (hmac_hex64_Ok _ _ k m Ek Em). eexists.
  split; [done|]. apply (hmac_hex64_shape (ed25519_key self) message).
  by apply hmac_hex64_Ok.
Qed.

(** X5: [MockClient.sign] returns exactly when the client's key and the
    message can both be encoded in UTF-8, and then the signature is 64
    lower-case hexadecimal digits, so that the slice [[:64]] removes
    nothing; otherwise it raises UnicodeEncodeError. *)
Theorem sign_outcome (self : MockClient) message :
  if decide (encodable (ed25519_key self) ∧ encodable message)
  then ∃ sig, sign self message = Ok sig
              ∧ length sig = 64%nat ∧ Forall hex_char sig
  else sign self message = Raise UnicodeEncodeError.
Proof.
  case_decide as H.
  - destruct H. by apply sign_Ok.
  - unfold sign, hmac_hex64.
    destruct (decide (encodable (ed25519_key self))) as [Hk|Hk].
    + destruct (encode_total _ Hk) as [k ->]. cbn [mbind result_bind].
      by rewrite (encode_not_encodable message) by tauto.
    + by rewrite (encode_not_encodable (ed25519_key self)).
Qed.

(** ** [MockClient.send_message] and [MockClient.receive_messages] *)

Lemma ciphertext_encodable b K8 :
  encodable K8 → encodable (py "encrypted_" ++ b64encode b ++ py "_" ++ K8).
Proof.
  intros HK. rewrite !encodable_app. repeat split; [| |  |exact HK].
  - apply (bool_decide_unpack _). vm_compute. reflexivity.
  - apply encodable_ascii. eapply Forall_impl; [apply b64encode_chars|].
    cbn. tauto.
  - apply (bool_decide_unpack _). vm_compute. reflexivity.
Qed.

(** The record a client's send leaves on the server. *)
Lemma client_send_stores (self : MockClient) server recipient message uuid now K :
  contacts self !! recipient = Some K →
  clients server !! name self = Some (ed25519_key self) →
  encodable message → encodable (ed25519_key self) → encodable (take 8 K) →
  ∃ c sig,
    encrypt self message K = Ok c ∧ sign self c = Ok sig
    ∧ client_send_message self server recipient message uuid now
      = (Ok (),
         {| clients := clients server;
            messages := messages server ++
              [{| msg_id := uuid; msg_sender_id := name self;
                  msg_recipient_id := recipient; msg_content := c;
                  msg_timestamp := now; msg_signature := sig |}] |}).
Proof.
  intros Hc Hreg Hm Hk HK.
  destruct (encode_total message Hm) as [b Eb].
  pose proof (encrypt_value self message K b Eb) as Ec.
  destruct (sign_Ok self _ Hk (ciphertext_encodable b _ HK))
    as (sig & Es & _).
  eexists _, sig. split; [exact Ec|]. split; [exact Es|].
  unfold client_send_message. rewrite Hc, Ec. cbn [mbind result_bind].
  rewrite Es. cbn [mbind result_bind].
  by rewrite (send_message_accepts server (name self) (ed25519_key self)
                recipient _ sig uuid now Hreg Es).
Qed.

(** X6: when the recipient is a contact, the client is registered on the
    server under its own signing key, and the message, that key and the
    first eight characters of the contact's key can be encoded in UTF-8,
    [MockClient.send_message] returns normally and the server stores
    exactly one new record, last in the store: the given UUID as id, the
    client's name as sender, the recipient, the output of [encrypt] as
    content, the clock reading, and the output of [sign] as signature. *)
Theorem client_send_accepted (self : MockClient) server recipient message
    uuid now K :
  contacts self !! recipient = Some K →
  clients server !! name self = Some (ed25519_key self) →
  encodable message → encodable (ed25519_key self) → encodable (take 8 K) →
  ∃ c sig,
    encrypt self message K = Ok c ∧ sign self c = Ok sig
    ∧ client_send_message self server recipient message uuid now
      = (Ok (),
         {| clients := clients server;
            messages := messages server ++
              [{| msg_id := uuid; msg_sender_id := name self;
                  msg_recipient_id := recipient; msg_content := c;
                  msg_timestamp := now; msg_signature := sig |}] |}).
Proof. apply client_send_stores. Qed.

(** X7: a call of [MockClient.send_message] that raises leaves the server
    as it was; in particular a recipient that is not a contact raises
    ValueError before anything is encrypted, signed or sent. *)
Theorem client_send_failure (self : MockClient) server recipient message
    uuid now :
  (contacts self !! recipient = None →
   client_send_message self server recipient message uuid now
   = (Raise ValueError, server))
  ∧ (∀ e, (client_send_message self server recipient message uuid now).1
          = Raise e →
          (client_send_message self server recipient message uuid now).2
          = server).
Proof.
  split; unfold client_send_message.
  - by intros ->.
  - intros e. destruct (contacts self !! recipient) as [K|]; [|done].
    destruct (encrypt self message K) as [c|]; [|done].
    cbn [mbind result_bind].
    destruct (sign self c) as [sig|]; [|done].
    cbn [mbind result_bind]. unfold send_message.
    repeat case_match; simplify_eq; done.
Qed.

(** X8: the client does not look at the server's response.  When the
    client is not registered on the server (and the recipient is a
    contact, the texts can be encoded), [MockClient.send_message] returns
    normally although the server answered "Unknown sender" and stored
    nothing. *)
Theorem client_send_unregistered (self : MockClient) server recipient message
    uuid now K :
  contacts self !! recipient = Some K →
  clients server !! name self = None →
  encodable message → encodable (ed25519_key self) → encodable (take 8 K) →
  client_send_message self server recipient message uuid now = (Ok (), server).
Proof.
  intros Hc Hreg Hm Hk HK.
  destruct (encode_total message Hm) as [b Eb].
  pose proof (encrypt_value self message K b Eb) as Ec.
  destruct (sign_Ok self _ Hk (ciphertext_encodable b _ HK))
    as (sig & Es & _).
  unfold client_send_message. rewrite Hc, Ec. cbn [mbind result_bind].
  rewrite Es. cbn [mbind result_bind]. unfold send_message. by rewrite Hreg.
Qed.

Lemma client_send_accepted_witness :
  contacts alice1 !! py "bob" = Some (x25519_key bob)
  ∧ clients s_alice !! name alice1 = Some (ed25519_key alice1)
  ∧ encodable (py "hi") ∧ encodable (ed25519_key alice1)
  ∧ encodable (take 8 (x25519_key bob))
  ∧ ∃ c sig,
      encrypt alice1 (py "hi") (x25519_key bob) = Ok c
      ∧ sign alice1 c = Ok sig
      ∧ client_send_message alice1 s_alice (py "bob") (py "hi")
          (py "msg_001") (py "2024-01-01T10:00:00")
        = (Ok (),
           {| clients := clients s_alice;
              messages := messages s_alice ++
                [{| msg_id := py "msg_001"; msg_sender_id := name alice1;
                    msg_recipient_id := py "bob"; msg_content := c;
                    msg_timestamp := py "2024-01-01T10:00:00";
                    msg_signature := sig |}] |}).
Proof.
  assert (contacts alice1 !! py "bob" = Some (x25519_key bob)) as H1
    by (vm_compute; reflexivity).
  assert (clients s_alice !! name alice1 = Some (ed25519_key alice1)) as H2
    by (vm_compute; reflexivity).
  assert (encodable (py "hi")) as H3
    by (apply (bool_decide_unpack _); vm_compute; reflexivity).
  assert (encodable (ed25519_key alice1)) as H4
    by (apply (bool_decide_unpack _); vm_compute; reflexivity).
  assert (encodable (take 8 (x25519_key bob))) as H5
    by (apply (bool_decide_unpack _); vm_compute; reflexivity).
  split; [exact H1|]. split; [exact H2|]. split; [exact H3|].
  split; [exact H4|]. split; [exact H5|].
  exact (client_send_accepted alice1 s_alice (py "bob") (py "hi")
           (py "msg_001") (py "2024-01-01T10:00:00") (x25519_key bob)
           H1 H2 H3 H4 H5).
Defined.

Lemma client_send_unregistered_witness :
  contacts alice1 !! py "bob" = Some (x25519_key bob)
  ∧ clients new_server !! name alice1 = None
  ∧ encodable (py "hi") ∧ encodable (ed25519_key alice1)
  ∧ encodable (take 8 (x25519_key bob))
  ∧ client_send_message alice1 new_server (py "bob") (py "hi")
      (py "msg_001") (py "2024-01-01T10:00:00")
    = (Ok (), new_server).
Proof.
  assert (contacts alice1 !! py "bob" = Some (x25519_key bob)) as H1
    by (vm_compute; reflexivity).
  assert (clients new_server !! name alice1 = None) as H2
    by (vm_compute; reflexivity).
  assert (encodable (py "hi")) as H3
    by (apply (bool_decide_unpack _); vm_compute; reflexivity).
  assert (encodable (ed25519_key alice1)) as H4
    by (apply (bool_decide_unpack _); vm_compute; reflexivity).
  assert (encodable (take 8 (x25519_key bob))) as H5
    by (apply (bool_decide_unpack _); vm_compute; reflexivity).
  split; [exact H1|]. split; [exact H2|]. split; [exact H3|].
  split; [exact H4|]. split; [exact H5|].
  exact (client_send_unregistered alice1 new_server (py "bob") (py "hi")
           (py "msg_001") (py "2024-01-01T10:00:00") (x25519_key bob)
           H1 H2 H3 H4 H5).
Defined.

Lemma decrypt_all_app self l1 l2 :
  decrypt_all self (l1 ++ l2)
  = (a ← decrypt_all self l1; b ← decrypt_all self l2; Ok (a ++ b)).
Proof.
  induction l1 as [|m l1 IH]; cbn [app decrypt_all].
  - cbn. by destruct (decrypt_all self l2).
  - destruct (contacts self !! msg_sender_id m) as [key|]; [|exact IH].
    destruct (decrypt self (msg_content m) key) as [p|]; [|done].
    cbn [mbind result_bind]. rewrite IH.
    destruct (decrypt_all self l1) as [a|]; [|done].
    cbn [mbind result_bind]. by destruct (decrypt_all self l2).
Qed.

(** What [decrypt_all] returns, entry by entry. *)
Lemma decrypt_all_Ok self msgs out :
  decrypt_all self msgs = Ok out →
  Forall2 (λ m d,
      d_sender_id d = msg_sender_id m ∧ d_timestamp d = msg_timestamp m
      ∧ ∃ key, contacts self !! msg_sender_id m = Some key
               ∧ decrypt self (msg_content m) key
                 = Ok (d_decrypted_content d))
    (filter (λ m, is_Some (contacts self !! msg_sender_id m)) msgs) out.
Proof.
  revert out. induction msgs as [|m msgs IH]; intros out; cbn [decrypt_all].
  { intros [= <-]. constructor. }
  destruct (contacts self !! msg_sender_id m) as [key|] eqn:Ek.
  - rewrite filter_cons_True by (by rewrite Ek).
    destruct (decrypt self (msg_content m) key) as [p|] eqn:Ep; [|done].
    cbn [mbind result_bind].
    destruct (decrypt_all self msgs) as [rest|]; [|done].
    cbn. intros [= <-]. constructor; [|by apply IH].
    cbn. split; [done|]. split; [done|]. eauto.
  - rewrite filter_cons_False by (rewrite Ek; by intros [? ?]).
    apply IH.
Qed.

Lemma decrypt_all_Raise self msgs m key e :
  m ∈ msgs → contacts self !! msg_sender_id m = Some key →
  decrypt self (msg_content m) key = Raise e →
  ∃ e', decrypt_all self msgs = Raise e'.
Proof.
  intros Hin Hk He. induction msgs as [|m0 msgs IH]; [by apply elem_of_nil in Hin|].
  cbn [decrypt_all]. apply elem_of_cons in Hin as [<-|Hin].
  - rewrite Hk, He. eauto.
  - destruct (IH Hin) as [e' ->].
    destruct (contacts self !! msg_sender_id m0) as [k0|]; [|eauto].
    destruct (decrypt self (msg_content m0) k0); cbn; eauto.
Qed.

Lemma filter_readable self (msgs : list Message) :
  filter (readable self) msgs
  = filter (λ m, is_Some (contacts self !! msg_sender_id m))
      (filter (λ m, msg_recipient_id m = name self) msgs).
Proof.
  induction msgs as [|m msgs IH]; [done|].
  unfold readable in *.
  destruct (decide (msg_recipient_id m = name self)) as [Hr|Hr].
  - rewrite (filter_cons_True (λ m, msg_recipient_id m = name self)) by done.
    destruct (decide (is_Some (contacts self !! msg_sender_id m))) as [Hs|Hs].
    + rewrite !filter_cons_True by done. by rewrite IH.
    + rewrite !filter_cons_False by tauto. exact IH.
  - rewrite (filter_cons_False (λ m, msg_recipient_id m = name self)) by done.
    rewrite filter_cons_False by tauto. exact IH.
Qed.

(** X9: what [MockClient.receive_messages] returns.  When it returns, the
    server is unchanged and the list has one entry for each stored
    message addressed to the client whose sender is among its contacts, in
    storage order; the entry carries that message's sender and timestamp
    and the outcome of [decrypt] on its content.  Messages from senders
    that are not contacts are left out without notice. *)
Theorem receive_messages_entries self server out :
  (receive_messages self server).1 = Ok out →
  (receive_messages self server).2 = server
  ∧ Forall2 (λ m d,
        d_sender_id d = msg_sender_id m ∧ d_timestamp d = msg_timestamp m
        ∧ ∃ key, contacts self !! msg_sender_id m = Some key
                 ∧ decrypt self (msg_content m) key
                   = Ok (d_decrypted_content d))
      (filter (readable self) (messages server)) out.
Proof.
  unfold receive_messages, get_messages_for_client. cbn [fst snd].
  intros H. split; [done|]. rewrite filter_readable.
  by apply decrypt_all_Ok.
Qed.

(** X10: one stored message that cannot be decrypted spoils the whole
    batch.  When some message addressed to the client, from one of its
    contacts, makes [decrypt] raise, [MockClient.receive_messages] raises
    too and returns none of the other messages; the server is unchanged. *)
Theorem receive_messages_aborts self server m key e :
  m ∈ messages server → msg_recipient_id m = name self →
  contacts self !! msg_sender_id m = Some key →
  decrypt self (msg_content m) key = Raise e →
  ∃ e', receive_messages self server = (Raise e', server).
Proof.
  intros Hin Hr Hk He. unfold receive_messages, get_messages_for_client.
  destruct (decrypt_all_Raise self
              (filter (λ msg, msg_recipient_id msg = name self)
                 (messages server)) m key e) as [e' ->]; [|done..|eauto].
  by apply list_elem_of_filter.
Qed.

Lemma receive_messages_entries_witness :
  (receive_messages bob1 s_one).1
  = Ok [{| d_sender_id := py "alice"; d_decrypted_content := py "hi";
           d_timestamp := py "2024-01-01T10:00:00" |}]
  ∧ (receive_messages bob1 s_one).2 = s_one
  ∧ Forall2 (λ m d,
        d_sender_id d = msg_sender_id m ∧ d_timestamp d = msg_timestamp m
        ∧ ∃ key, contacts bob1 !! msg_sender_id m = Some key
                 ∧ decrypt bob1 (msg_content m) key
                   = Ok (d_decrypted_content d))
      (filter (readable bob1) (messages s_one))
      [{| d_sender_id := py "alice"; d_decrypted_content := py "hi";
          d_timestamp := py "2024-01-01T10:00:00" |}].
Proof.
  assert ((receive_messages bob1 s_one).1
          = Ok [{| d_sender_id := py "alice"; d_decrypted_content := py "hi";
                   d_timestamp := py "2024-01-01T10:00:00" |}]) as H
    by (vm_compute; reflexivity).
  split; [exact H|].
  exact (receive_messages_entries bob1 s_one _ H).
Defined.

Lemma receive_messages_aborts_witness :
  let m := {| msg_id := py "msg_003"; msg_sender_id := py "alice";
              msg_recipient_id := py "bob"; msg_content := c_bad;
              msg_timestamp := py "2024-01-01T10:00:02";
              msg_signature :=
                py "a41b4497b65d0bf32b4f7c746a8c729b7ebb3e4684fd56b6accbeb4df46dce14" |} in
  m ∈ messages s_bad
  ∧ msg_recipient_id m = name bob1
  ∧ contacts bob1 !! msg_sender_id m = Some (x25519_key alice)
  ∧ decrypt bob1 (msg_content m) (x25519_key alice) = Raise BinasciiError
  ∧ ∃ e', receive_messages bob1 s_bad = (Raise e', s_bad).
Proof.
  intros m.
  assert (m ∈ messages s_bad) as H1
    by (apply (bool_decide_unpack _); vm_compute; reflexivity).
  assert (msg_recipient_id m = name bob1) as H2 by (vm_compute; reflexivity).
  assert (contacts bob1 !! msg_sender_id m = Some (x25519_key alice)) as H3
    by (vm_compute; reflexivity).
  assert (decrypt bob1 (msg_content m) (x25519_key alice)
          = Raise BinasciiError) as H4 by (vm_compute; reflexivity).
  split; [exact H1|]. split; [exact H2|]. split; [exact H3|].
  split; [exact H4|].
  exact (receive_messages_aborts bob1 s_bad m (x25519_key alice)
           BinasciiError H1 H2 H3 H4).
Defined.

Lemma client_send_delivers (A B : MockClient) server message uuid now K kA old :
  contacts A !! name B = Some K →
  clients server !! name A = Some (ed25519_key A) →
  encodable message → encodable (ed25519_key A) → encodable (take 8 K) →
  contacts B !! name A = Some kA →
  (receive_messages B server).1 = Ok old →
  let s' := (client_send_message A server (name B) message uuid now).2 in
  receive_messages B s'
  = (Ok (old ++ [{| d_sender_id := name A; d_decrypted_content := message;
                    d_timestamp := now |}]), s').
Proof.
  intros Hc Hreg Hm Hk HK HkA Hold.
  destruct (encode_total message Hm) as [b Eb].
  destruct (client_send_stores A server (name B) message uuid now K
              Hc Hreg Hm Hk HK) as (c & sig & Ec & _ & ->).
  rewrite (encrypt_value A message K b Eb) in Ec. apply Ok_inj in Ec as <-.
  cbn [snd]. unfold receive_messages, get_messages_for_client in *.
  cbn [fst messages] in *. f_equal.
  rewrite filter_app, filter_cons_True, filter_nil by done.
  rewrite decrypt_all_app, Hold. cbn [mbind result_bind decrypt_all].
  cbn [msg_sender_id msg_content msg_timestamp]. rewrite HkA.
  rewrite decrypt_envelope by (by eapply encode_bytes).
  by rewrite (decode_encode message b Hm Eb).
Qed.

(** X11: a message that is sent arrives.  Let client [A] be registered on
    the server under its signing key and have [B] among its contacts, let
    [B] have [A] among its contacts, and let the texts be encodable.  If
    [B.receive_messages] returned the list [old] before, then after
    [A.send_message(server, B.name, message)] it returns [old] followed by
    one entry with [A]'s name, exactly [message], and the time of the
    send.  The keys that [A] and [B] hold for each other play no part. *)
Theorem send_then_receive (A B : MockClient) server message uuid now K kA old :
  contacts A !! name B = Some K →
  clients server !! name A = Some (ed25519_key A) →
  encodable message → encodable (ed25519_key A) → encodable (take 8 K) →
  contacts B !! name A = Some kA →
  (receive_messages B server).1 = Ok old →
  let s' := (client_send_message A server (name B) message uuid now).2 in
  receive_messages B s'
  = (Ok (old ++ [{| d_sender_id := name A; d_decrypted_content := message;
                    d_timestamp := now |}]), s').
Proof. apply client_send_delivers. Qed.

Lemma send_then_receive_witness :
  contacts alice1 !! name bob1 = Some (x25519_key bob)
  ∧ clients s_one !! name alice1 = Some (ed25519_key alice1)
  ∧ encodable (py "again") ∧ encodable (ed25519_key alice1)
  ∧ encodable (take 8 (x25519_key bob))
  ∧ contacts bob1 !! name alice1 = Some (x25519_key alice)
  ∧ (receive_messages bob1 s_one).1
    = Ok [{| d_sender_id := py "alice"; d_decrypted_content := py "hi";
             d_timestamp := py "2024-01-01T10:00:00" |}]
  ∧ let s' := (client_send_message alice1 s_one (name bob1) (py "again")
                 (py "msg_002") (py "2024-01-01T10:00:01")).2 in
    receive_messages bob1 s'
    = (Ok ([{| d_sender_id := py "alice"; d_decrypted_content := py "hi";
               d_timestamp := py "2024-01-01T10:00:00" |}]
           ++ [{| d_sender_id := name alice1;
                  d_decrypted_content := py "again";
                  d_timestamp := py "2024-01-01T10:00:01" |}]), s').
Proof.
  assert (contacts alice1 !! name bob1 = Some (x25519_key bob)) as H1
    by (vm_compute; reflexivity).
  assert (clients s_one !! name alice1 = Some (ed25519_key alice1)) as H2
    by (vm_compute; reflexivity).
  assert (encodable (py "again")) as H3
    by (apply (bool_decide_unpack _); vm_compute; reflexivity).
  assert (encodable (ed25519_key alice1)) as H4
    by (apply (bool_decide_unpack _); vm_compute; reflexivity).
  assert (encodable (take 8 (x25519_key bob))) as H5
    by (apply (bool_decide_unpack _); vm_compute; reflexivity).
  assert (contacts bob1 !! name alice1 = Some (x25519_key alice)) as H6
    by (vm_compute; reflexivity).
  assert ((receive_messages bob1 s_one).1
          = Ok [{| d_sender_id := py "alice"; d_decrypted_content := py "hi";
                   d_timestamp := py "2024-01-01T10:00:00" |}]) as H7
    by (vm_compute; reflexivity).
  split; [exact H1|]. split; [exact H2|]. split; [exact H3|].
  split; [exact H4|]. split; [exact H5|]. split; [exact H6|].
  split; [exact H7|].
  exact (send_then_receive alice1 bob1 s_one (py "again") (py "msg_002")
           (py "2024-01-01T10:00:01") (x25519_key bob) (x25519_key alice)
           _ H1 H2 H3 H4 H5 H6 H7).
Defined.

(** ** The server over sequences of calls *)

(** What holds of every record the server stores. *)
Lemma after_signed s c :
  (∀ m, m ∈ messages s →
     is_Some (clients s !! msg_sender_id m)
     ∧ length (msg_signature m) = 64%nat
     ∧ ∃ key, hmac_hex64 key (msg_content m) = Ok (msg_signature m)) →
  ∀ m, m ∈ messages (after s c) →
     is_Some (clients (after s c) !! msg_sender_id m)
     ∧ length (msg_signature m) = 64%nat
     ∧ ∃ key, hmac_hex64 key (msg_content m) = Ok (msg_signature m).
Proof.
  intros Inv m. destruct c as [cid pk|sid rid content sig mid now|cid|];
    cbn [after register_client get_messages_for_client get_all_messages
         snd messages clients]; try apply Inv.
  - intros Hm. destruct (Inv m Hm) as (Hreg & Hlen & Hsig).
    split; [|done]. rewrite lookup_insert_is_Some.
    destruct (decide (cid = msg_sender_id m)); [by left | by right].
  - unfold send_message.
    destruct (clients s !! sid) as [key|] eqn:Ek; [|apply Inv].
    destruct (hmac_hex64 key content) as [expected|] eqn:Ee; [|apply Inv].
    case_bool_decide as Hne; [apply Inv|].
    cbn [snd messages clients]. intros Hm.
    apply elem_of_app in Hm as [Hm|Hm]; [by apply Inv|].
    apply list_elem_of_singleton in Hm as ->.
    cbn [msg_sender_id msg_signature msg_content].
    assert (sig = expected) as -> by (by destruct (decide (sig = expected))).
    split; [by rewrite Ek|]. split; [|eauto].
    by apply (hmac_hex64_shape key content).
Qed.

(** X12: in every state the server reaches from [MockServer()] by calls
    of its methods, each stored record comes from a sender that is in the
    registry, and its signature is 64 characters long and is the
    HMAC-SHA256 hex digest of its content under some key.  Nothing is
    required of the recipient: records for unregistered recipients are
    stored too. *)
Theorem stored_messages_signed calls m :
  m ∈ messages (run calls new_server) →
  is_Some (clients (run calls new_server) !! msg_sender_id m)
  ∧ length (msg_signature m) = 64%nat
  ∧ ∃ key, hmac_hex64 key (msg_content m) = Ok (msg_signature m).
Proof.
  revert m. unfold run.
  assert (∀ s, (∀ m, m ∈ messages s →
                  is_Some (clients s !! msg_sender_id m)
                  ∧ length (msg_signature m) = 64%nat
                  ∧ ∃ key, hmac_hex64 key (msg_content m)
                           = Ok (msg_signature m)) →
               ∀ m, m ∈ messages (fold_left after calls s) →
                  is_Some (clients (fold_left after calls s)
                             !! msg_sender_id m)
                  ∧ length (msg_signature m) = 64%nat
                  ∧ ∃ key, hmac_hex64 key (msg_content m)
                           = Ok (msg_signature m)) as Hrun.
  { induction calls as [|c calls IH]; intros s Inv; [exact Inv|].
    cbn [fold_left]. apply IH. by apply after_signed. }
  apply Hrun. intros m Hm. by apply elem_of_nil in Hm.
Qed.

Lemma stored_messages_signed_witness :
  let calls :=
    [RegisterClient (py "alice") (ed25519_key alice);
     SendMessage (py "alice") (py "nobody") c_hi sig_hi (py "msg_001")
       (py "2024-01-01T10:00:00");
     GetMessagesForClient (py "nobody")] in
  let m := {| msg_id := py "msg_001"; msg_sender_id := py "alice";
              msg_recipient_id := py "nobody"; msg_content := c_hi;
              msg_timestamp := py "2024-01-01T10:00:00";
              msg_signature := sig_hi |} in
  m ∈ messages (run calls new_server)
  ∧ is_Some (clients (run calls new_server) !! msg_sender_id m)
  ∧ length (msg_signature m) = 64%nat
  ∧ ∃ key, hmac_hex64 key (msg_content m) = Ok (msg_signature m).
Proof.
  intros calls m.
  assert (m ∈ messages (run calls new_server)) as H
    by (apply (bool_decide_unpack _); vm_compute; reflexivity).
  split; [exact H|].
  exact (stored_messages_signed calls m H).
Defined.

Lemma after_monotone s c :
  messages s `prefix_of` messages (after s c)
  ∧ dom (clients s) ⊆ dom (clients (after s c))
  ∧ (length (messages (after s c)) ≤ S (length (messages s)))%nat.
Proof.
  destruct c as [cid pk|sid rid content sig mid now|cid|];
    cbn [after register_client get_messages_for_client get_all_messages
         snd messages clients].
  - split; [done|]. split; [apply dom_insert_subseteq|lia].
  - unfold send_message. repeat case_match; cbn [snd messages clients];
      rewrite ?length_app; cbn [length];
      (split; [try done; by apply prefix_app_r | split; [done | lia]]).
  - split; [done|]. split; [done|lia].
  - split; [done|]. split; [done|lia].
Qed.

(** X13: the server never forgets.  Over any sequence of calls of its
    methods, from any state, the records stored at the start remain, in
    place, as a prefix of the store; every registered client id stays
    registered; and the store grows by at most one record per call. *)
Theorem run_monotone calls s :
  messages s `prefix_of` messages (run calls s)
  ∧ dom (clients s) ⊆ dom (clients (run calls s))
  ∧ (length (messages (run calls s)) ≤ length (messages s) + length calls)%nat.
Proof.
  unfold run. revert s. induction calls as [|c calls IH]; intros s.
  { cbn. split; [done|]. split; [done|lia]. }
  cbn [fold_left length].
  destruct (after_monotone s c) as (H1 & H2 & H3).
  destruct (IH (after s c)) as (I1 & I2 & I3).
  split; [by etrans|]. split; [by etrans|lia].
Qed.

(** X14: an accepted message goes to one mailbox.  After [send_message]
    from a registered sender with the matching signature,
    [get_messages_for_client] returns for the recipient what it returned
    before followed by the new record, and for every other client id
    exactly what it returned before; the recipient need not be
    registered. *)
Theorem send_message_delivers s sid key rid content sig mid now cid :
  clients s !! sid = Some key →
  hmac_hex64 key content = Ok sig →
  (get_messages_for_client
     (send_message s sid rid content sig mid now).2 cid).1
  = (get_messages_for_client s cid).1
    ++ (if decide (rid = cid)
        then [{| msg_id := mid; msg_sender_id := sid;
                 msg_recipient_id := rid; msg_content := content;
                 msg_timestamp := now; msg_signature := sig |}]
        else []).
Proof.
  intros Hk He.
  rewrite (send_message_accepts s sid key rid content sig mid now Hk He).
  unfold get_messages_for_client. cbn [fst snd messages].
  rewrite filter_app. reflexivity.
Qed.

Lemma send_message_delivers_witness :
  clients s_alice !! py "alice" = Some (ed25519_key alice)
  ∧ hmac_hex64 (ed25519_key alice) c_hi = Ok sig_hi
  ∧ (get_messages_for_client
       (send_message s_alice (py "alice") (py "bob") c_hi sig_hi
          (py "msg_001") (py "2024-01-01T10:00:00")).2 (py "bob")).1
    = (get_messages_for_client s_alice (py "bob")).1
      ++ (if decide (py "bob" = py "bob")
          then [{| msg_id := py "msg_001"; msg_sender_id := py "alice";
                   msg_recipient_id := py "bob"; msg_content := c_hi;
                   msg_timestamp := py "2024-01-01T10:00:00";
                   msg_signature := sig_hi |}]
          else []).
Proof.
  assert (clients s_alice !! py "alice" = Some (ed25519_key alice)) as Hk
    by (vm_compute; reflexivity).
  assert (hmac_hex64 (ed25519_key alice) c_hi = Ok sig_hi) as He
    by (vm_compute; reflexivity).
  split; [exact Hk|]. split; [exact He|].
  exact (send_message_delivers s_alice (py "alice") (ed25519_key alice)
           (py "bob") c_hi sig_hi (py "msg_001") (py "2024-01-01T10:00:00")
           (py "bob") Hk He).
Defined.

(** X15: the signature binds the content to the sender's registry entry
    and to nothing else.  A content and signature that [send_message]
    accepted once are accepted again for any recipient, message id and
    time, on any server that holds the same registry entry for the
    sender. *)
Theorem accepted_signature_replays s1 s2 sid rid rid' content sig
    mid mid' now now' :
  clients s1 !! sid = clients s2 !! sid →
  (send_message s1 sid rid content sig mid now).1 = Ok (MessageSent mid) →
  (send_message s2 sid rid' content sig mid' now').1 = Ok (MessageSent mid').
Proof.
  unfold send_message. intros <-.
  destruct (clients s1 !! sid) as [key|]; [|done].
  destruct (hmac_hex64 key content) as [expected|]; [|done].
  by case_bool_decide.
Qed.

Lemma accepted_signature_replays_witness :
  clients s_alice !! py "alice" = clients s_two !! py "alice"
  ∧ (send_message s_alice (py "alice") (py "bob") c_hi sig_hi (py "msg_001")
       (py "2024-01-01T10:00:00")).1
    = Ok (MessageSent (py "msg_001"))
  ∧ (send_message s_two (py "alice") (py "carol") c_hi sig_hi (py "msg_777")
       (py "2025-06-30T23:59:59")).1
    = Ok (MessageSent (py "msg_777")).
Proof.
  assert (clients s_alice !! py "alice" = clients s_two !! py "alice") as H1
    by (vm_compute; reflexivity).
  assert ((send_message s_alice (py "alice") (py "bob") c_hi sig_hi
             (py "msg_001") (py "2024-01-01T10:00:00")).1
          = Ok (MessageSent (py "msg_001"))) as H2
    by (vm_compute; reflexivity).
  split; [exact H1|]. split; [exact H2|].
  exact (accepted_signature_replays s_alice s_two (py "alice") (py "bob")
           (py "carol") c_hi sig_hi (py "msg_001") (py "msg_777")
           (py "2024-01-01T10:00:00") (py "2025-06-30T23:59:59") H1 H2).
Defined.

(** X16: registration is not authenticated.  After
    [register_client(client_id, key)], whether or not the id was
    registered before and under whatever key, a message signed with [key]
    is accepted as sent by [client_id]. *)
Theorem register_then_send_accepted s cid key rid content sig mid now :
  hmac_hex64 key content = Ok sig →
  (send_message (register_client s cid key).2 cid rid content sig mid now).1
  = Ok (MessageSent mid).
Proof.
  intros He.
  rewrite (send_message_accepts _ cid key rid content sig mid now); [done| |done].
  cbn [register_client snd clients]. apply lookup_insert_eq.
Qed.

Lemma register_then_send_accepted_witness :
  hmac_hex64 (ed25519_key alice) c_hi = Ok sig_hi
  ∧ (send_message
       (register_client
          (register_client new_server (py "alice") (py "another key")).2
          (py "alice") (ed25519_key alice)).2
       (py "alice") (py "bob") c_hi sig_hi (py "msg_001")
       (py "2024-01-01T10:00:00")).1
    = Ok (MessageSent (py "msg_001")).
Proof.
  assert (hmac_hex64 (ed25519_key alice) c_hi = Ok sig_hi) as He
    by (vm_compute; reflexivity).
  split; [exact He|].
  exact (register_then_send_accepted _ (py "alice") (ed25519_key alice)
           (py "bob") c_hi sig_hi (py "msg_001") (py "2024-01-01T10:00:00")
           He).
Defined.

(** ** The constructors and the two demonstrations as a whole *)

Lemma new_client_Ok nm c :
  new_client nm = Ok c →
  encodable nm
  ∧ ∃ h, length h = 16%nat ∧ Forall hex_char h
         ∧ c = {| name := nm;
                  ed25519_key := nm ++ py "_ed25519_key_" ++ h;
                  x25519_key := nm ++ py "_x25519_key_" ++ h;
                  contacts := ∅ |}.
Proof.
  unfold new_client. destruct (encode nm) as [b|] eqn:E; [|done].
  cbn [mbind result_bind]. intros [= <-].
  split; [by eapply encode_Ok|].
  exists (take 16 (hexdigest (md5 b))). split; [|split; [|done]].
  - rewrite length_take, length_hexdigest, length_md5. lia.
  - apply Forall_take, hexdigest_chars.
Qed.

(** X17: [MockClient(name)] is built exactly when the name can be encoded
    in UTF-8, and raises UnicodeEncodeError otherwise.  The new client
    has no contacts; its keys are the name followed by "_ed25519_key_",
    resp. "_x25519_key_", and by the same sixteen hexadecimal digits: the
    first sixteen of the MD5 hex digest of the UTF-8 bytes of the name. *)
Theorem new_client_outcome nm :
  if decide (encodable nm)
  then ∃ b,
         encode nm = Ok b
         ∧ let h := take 16 (hexdigest (md5 b)) in
           length h = 16%nat ∧ Forall hex_char h
           ∧ new_client nm
             = Ok {| name := nm;
                     ed25519_key := nm ++ py "_ed25519_key_" ++ h;
                     x25519_key := nm ++ py "_x25519_key_" ++ h;
                     contacts := ∅ |}
  else new_client nm = Raise UnicodeEncodeError.
Proof.
  case_decide as H.
  - destruct (encode_total nm H) as [b E]. exists b.
    split; [exact E|]. cbn zeta. split; [|split].
    + rewrite length_take, length_hexdigest, length_md5. lia.
    + apply Forall_take, hexdigest_chars.
    + unfold new_client. by rewrite E.
  - unfold new_client. by rewrite (encode_not_encodable nm H).
Qed.

(** X18: two clients built by [MockClient(name)] have the same signing
    key only if they have the same name. *)
Theorem new_client_key_injective n1 n2 c1 c2 :
  new_client n1 = Ok c1 → new_client n2 = Ok c2 →
  ed25519_key c1 = ed25519_key c2 → n1 = n2.
Proof.
  intros E1 E2.
  destruct (new_client_Ok n1 c1 E1) as (_ & h1 & L1 & _ & ->).
  destruct (new_client_Ok n2 c2 E2) as (_ & h2 & L2 & _ & ->).
  cbn [ed25519_key]. intros H.
  apply app_inj_2 in H as [H _]; [done|].
  rewrite !length_app. lia.
Qed.

Lemma new_client_key_injective_witness :
  ∃ c,
    new_client (py "sugar") = Ok c
    ∧ ed25519_key c = ed25519_key c
    ∧ py "sugar" = py "sugar".
Proof.
  destruct (new_client (py "sugar")) as [c|] eqn:E;
    [|vm_compute in E; discriminate E].
  exists c. split; [reflexivity|]. split; [reflexivity|].
  exact (new_client_key_injective (py "sugar") (py "sugar") c c E E eq_refl).
Defined.




(** ** [test_demo.py] *)

(** X20: on the server of [test_demo.py], after an accepted
    [send_message], [get_messages] answers the recipient with that very
    record (the latest one hides the earlier ones), and answers every
    other client id as it did before the send. *)
Theorem test_demo_latest_message s sid key rid content sig mid now cid :
  clients s !! sid = Some key →
  hmac_hex64 key content = Ok sig →
  (TestDemo.get_messages
     (TestDemo.send_message s sid rid content sig mid now).2 cid).1
  = if decide (rid = cid)
    then MessageReceived
           {| msg_id := mid; msg_sender_id := sid;
              msg_recipient_id := rid; msg_content := content;
              msg_timestamp := now; msg_signature := sig |}
    else (TestDemo.get_messages s cid).1.
Proof.
  intros Hk He. rewrite test_demo_send_message.
  rewrite (send_message_accepts s sid key rid content sig mid now Hk He).
  unfold TestDemo.get_messages. cbn [snd messages].
  rewrite filter_app. case_decide.
  - rewrite filter_cons_True, filter_nil, last_snoc by done. done.
  - rewrite filter_cons_False, filter_nil, app_nil_r by done.
    by destruct (last _).
Qed.

Lemma test_demo_latest_message_witness :
  clients s_one !! py "alice" = Some (ed25519_key alice)
  ∧ hmac_hex64 (ed25519_key alice) c_hi = Ok sig_hi
  ∧ (TestDemo.get_messages
       (TestDemo.send_message s_one (py "alice") (py "bob") c_hi sig_hi
          (py "msg_002") (py "2024-01-01T10:00:01")).2 (py "bob")).1
    = if decide (py "bob" = py "bob")
      then MessageReceived
             {| msg_id := py "msg_002"; msg_sender_id := py "alice";
                msg_recipient_id := py "bob"; msg_content := c_hi;
                msg_timestamp := py "2024-01-01T10:00:01";
                msg_signature := sig_hi |}
      else (TestDemo.get_messages s_one (py "bob")).1.
Proof.
  assert (clients s_one !! py "alice" = Some (ed25519_key alice)) as Hk
    by (vm_compute; reflexivity).
  assert (hmac_hex64 (ed25519_key alice) c_hi = Ok sig_hi) as He
    by (vm_compute; reflexivity).
  split; [exact Hk|]. split; [exact He|].
  exact (test_demo_latest_message s_one (py "alice") (ed25519_key alice)
           (py "bob") c_hi sig_hi (py "msg_002") (py "2024-01-01T10:00:01")
           (py "bob") Hk He).
Defined.



(** ** The server on text that cannot be encoded *)

(** X22: [MockServer.send_message] can raise.  For a registered sender,
    when the registered key or the content holds a lone surrogate the
    recomputation of the signature raises UnicodeEncodeError: no response
    is returned and nothing is stored. *)
Theorem send_message_raises s sid key rid content sig mid now :
  clients s !! sid = Some key →
  ¬ (encodable key ∧ encodable content) →
  send_message s sid rid content sig mid now = (Raise UnicodeEncodeError, s).
Proof.
  intros Hk Hne. unfold send_message, hmac_hex64. rewrite Hk.
  destruct (decide (encodable key)) as [Hkey|Hkey].
  - destruct (encode_total key Hkey) as [k ->]. cbn [mbind result_bind].
    by rewrite (encode_not_encodable content) by tauto.
  - by rewrite (encode_not_encodable key).
Qed.

Lemma send_message_raises_witness :
  clients s_alice !! py "alice" = Some (ed25519_key alice)
  ∧ ¬ (encodable (ed25519_key alice) ∧ encodable (py "encrypted_" ++ [0xD800]))
  ∧ send_message s_alice (py "alice") (py "bob") (py "encrypted_" ++ [0xD800])
      sig_hi (py "msg_001") (py "2024-01-01T10:00:00")
    = (Raise UnicodeEncodeError, s_alice).
Proof.
  assert (clients s_alice !! py "alice" = Some (ed25519_key alice)) as Hk
    by (vm_compute; reflexivity).
  assert (¬ (encodable (ed25519_key alice)
             ∧ encodable (py "encrypted_" ++ [0xD800]))) as Hne
    by (apply (bool_decide_unpack _); vm_compute; reflexivity).
  split; [exact Hk|]. split; [exact Hne|].
  exact (send_message_raises s_alice (py "alice") (ed25519_key alice)
           (py "bob") (py "encrypted_" ++ [0xD800]) sig_hi (py "msg_001")
           (py "2024-01-01T10:00:00") Hk Hne).
Defined.

(** [create_client] files the new client under its name. *)
Example create_client_sugar :
  let '(r, demo) := create_client new_demo (py "sugar") in
  (get_public_keys <$> r)
  = Ok (py "sugar_ed25519_key_ada15bd1a5ddf0b7",
        py "sugar_x25519_key_ada15bd1a5ddf0b7")
  ∧ (demo_clients demo !! py "sugar") = match r with Ok c => Some c | _ => None end
  ∧ server demo = new_server.
Proof. vm_compute. repeat apply conj; reflexivity. Qed.
